(** * DFRobotESPpH: the calibration engine of the analog pH probe driver

    A shallow embedding of [src/dfrobot-esp-ph.cpp].

    - C [float] and [double] values are IEEE-754 binary32 and binary64 numbers,
      carried as [spec_float] and computed with the operations of
      [SpecFloat] at the matching precision (round to nearest, ties to even).
    - Member functions are computations in a small state-and-output monad
      over a [World]: the driver object, the two function-local statics of
      [phCalibration], and the key-value store behind [preferences]; what
      the code sends to [Serial] and to the store is the emitted trace.
    - The command transport ([cmdSerialDataAvailable] and the argument-less
      [calibration] and [manualCalibration]) polls the serial port and the
      clock; the bytes waiting on the port and the successive readings of
      [millis()] are inputs of its model, and a poll that never sees its
      line is the outcome [Hangs].
    - The header [dfrobot-esp-ph.h] is not part of the sources: the four
      band voltages and the length of the receive buffer are parameters.
    - The accuracy of the linear model of [readPH] is proved from the
      rounding of each floating operation, related to its exact rational
      value. *)

From Stdlib Require Import ZArith QArith Qabs Qpower Lqa Bool List String Ascii Lia.
From Stdlib Require Import Floats.SpecFloat.
From stdpp Require Import gmap strings.

Local Open Scope Z_scope.

(** ** IEEE-754 arithmetic at the two C precisions *)

Abbreviation float := spec_float (only parsing).
Abbreviation double := spec_float (only parsing).

Module F32.
Definition prec := 24.
Definition emax := 128.
Definition add := SFadd prec emax.
Definition sub := SFsub prec emax.
Definition mul := SFmul prec emax.
Definition div := SFdiv prec emax.
(** conversion of a C [double] to [float] *)
Definition of_double (x : double) : float :=
  match x with
  | S754_finite s m e => binary_round prec emax s m e
  | _ => x
  end.
(** conversion of a C [int] to [float] *)
Definition of_int (z : Z) : float := binary_normalize prec emax z 0 false.
End F32.

Module F64.
Definition prec := 53.
Definition emax := 1024.
Definition add := SFadd prec emax.
Definition sub := SFsub prec emax.
Definition mul := SFmul prec emax.
Definition div := SFdiv prec emax.
(** promotion of a C [float] to [double] (exact) *)
Definition of_float (x : float) : double :=
  match x with
  | S754_finite s m e => binary_round prec emax s m e
  | _ => x
  end.
Definition of_int (z : Z) : double := binary_normalize prec emax z 0 false.
(** the [double] denoted by the decimal literal [n / 10^k], written as the
    correctly rounded quotient of two exactly representable integers *)
Definition lit (n : Z) (pow10 : Z) : double := div (of_int n) (of_int pow10).
End F64.

Declare Scope double_scope.
Delimit Scope double_scope with D.
Infix "+" := F64.add : double_scope.
Infix "-" := F64.sub : double_scope.
Infix "*" := F64.mul : double_scope.
Infix "/" := F64.div : double_scope.

(** C comparisons on floating values; every comparison with a NaN is false. *)
Definition fgt (x y : spec_float) : bool := SFltb y x.
Definition flt (x y : spec_float) : bool := SFltb x y.
Definition feq (x y : spec_float) : bool := SFeqb x y.

(** finite in the IEEE sense: neither an infinity nor a NaN *)
Definition is_finite (x : spec_float) : bool :=
  match x with
  | S754_zero _ | S754_finite _ _ _ => true
  | S754_infinity _ | S754_nan => false
  end.



(** the literals of the source *)
Definition d7_0 : double := F64.of_int 7.
Definition d4_0 : double := F64.of_int 4.
Definition d3_0 : double := F64.of_int 3.
Definition d1500_0 : double := F64.of_int 1500.
Definition d25_0 : double := F64.of_int 25.
Definition d1844_17 : double := F64.lit 184417 100.
Definition d1348_68 : double := F64.lit 134868 100.

(** ** Vocabulary of the rounding analysis *)















(** ** The driver object, the store and the world *)

Record DFRobotESPpH : Type := {
  PH_PIN : Z;
  ESPADC : float;
  ESPVOLTAGE : Z;
  _phValue : float;
  _acidVoltage : float;
  _neutralVoltage : float;
  _voltage : float;
  _temperature : float
}.

(** What the code sends out: lines to [Serial], calls on [preferences]. *)
Inductive Event : Type :=
| Serial_print (s : string)
| Serial_println (s : string)
| Serial_print_float (x : float)
| Serial_println_float (x : float)
| preferences_begin (name : string) (readOnly : bool)
| preferences_putFloat (key : string) (value : float)
| preferences_end.

(** Modelled from the spec: the Calibration Store behind [preferences] (the
    ESP32 Preferences class is not part of the sources): a map from key names
    to floats with [get(name, default)] and [put(name, value)], opened and
    closed around a batch of operations. *)
Record World : Type := {
  self : DFRobotESPpH;
  phCalibrationFinish : bool;    (* static local of phCalibration *)
  enterCalibrationFlag : bool;   (* static local of phCalibration *)
  nvs : gmap string float
}.

Definition Eff (A : Type) : Type := World -> A * World * list Event.

Definition eff_ret {A} (a : A) : Eff A := fun w => (a, w, []).
Definition eff_bind {A B} (f : A -> Eff B) (c : Eff A) : Eff B :=
  fun w => let '(a, w1, o1) := c w in
           let '(b, w2, o2) := f a w1 in
           (b, w2, o1 ++ o2).

#[export] Instance Eff_ret : MRet Eff := @eff_ret.
#[export] Instance Eff_bind : MBind Eff := @eff_bind.

Definition skip : Eff unit := mret tt.
Definition emit (e : Event) : Eff unit := fun w => (tt, w, [e]).
Definition this {A} (proj : DFRobotESPpH -> A) : Eff A :=
  fun w => (proj (self w), w, []).
Definition update_this (f : DFRobotESPpH -> DFRobotESPpH) : Eff unit :=
  fun w => (tt, {| self := f (self w);
                   phCalibrationFinish := phCalibrationFinish w;
                   enterCalibrationFlag := enterCalibrationFlag w;
                   nvs := nvs w |}, []).

Definition with_phValue (x : float) (d : DFRobotESPpH) : DFRobotESPpH :=
  {| PH_PIN := PH_PIN d; ESPADC := ESPADC d; ESPVOLTAGE := ESPVOLTAGE d;
     _phValue := x; _acidVoltage := _acidVoltage d;
     _neutralVoltage := _neutralVoltage d; _voltage := _voltage d;
     _temperature := _temperature d |}.
Definition with_acidVoltage (x : float) (d : DFRobotESPpH) : DFRobotESPpH :=
  {| PH_PIN := PH_PIN d; ESPADC := ESPADC d; ESPVOLTAGE := ESPVOLTAGE d;
     _phValue := _phValue d; _acidVoltage := x;
     _neutralVoltage := _neutralVoltage d; _voltage := _voltage d;
     _temperature := _temperature d |}.
Definition with_neutralVoltage (x : float) (d : DFRobotESPpH) : DFRobotESPpH :=
  {| PH_PIN := PH_PIN d; ESPADC := ESPADC d; ESPVOLTAGE := ESPVOLTAGE d;
     _phValue := _phValue d; _acidVoltage := _acidVoltage d;
     _neutralVoltage := x; _voltage := _voltage d;
     _temperature := _temperature d |}.
Definition with_voltage (x : float) (d : DFRobotESPpH) : DFRobotESPpH :=
  {| PH_PIN := PH_PIN d; ESPADC := ESPADC d; ESPVOLTAGE := ESPVOLTAGE d;
     _phValue := _phValue d; _acidVoltage := _acidVoltage d;
     _neutralVoltage := _neutralVoltage d; _voltage := x;
     _temperature := _temperature d |}.
Definition with_temperature (x : float) (d : DFRobotESPpH) : DFRobotESPpH :=
  {| PH_PIN := PH_PIN d; ESPADC := ESPADC d; ESPVOLTAGE := ESPVOLTAGE d;
     _phValue := _phValue d; _acidVoltage := _acidVoltage d;
     _neutralVoltage := _neutralVoltage d; _voltage := _voltage d;
     _temperature := x |}.

Definition get_phCalibrationFinish : Eff bool :=
  fun w => (phCalibrationFinish w, w, []).
Definition get_enterCalibrationFlag : Eff bool :=
  fun w => (enterCalibrationFlag w, w, []).
Definition set_phCalibrationFinish (b : bool) : Eff unit :=
  fun w => (tt, {| self := self w; phCalibrationFinish := b;
                   enterCalibrationFlag := enterCalibrationFlag w;
                   nvs := nvs w |}, []).
Definition set_enterCalibrationFlag (b : bool) : Eff unit :=
  fun w => (tt, {| self := self w;
                   phCalibrationFinish := phCalibrationFinish w;
                   enterCalibrationFlag := b; nvs := nvs w |}, []).

(** the store operations the code calls on [preferences] *)
Definition preferences_getFloat (key : string) (defaultValue : float) : Eff float :=
  fun w => (default defaultValue (nvs w !! key), w, []).
Definition preferences_put (key : string) (value : float) : Eff unit :=
  fun w => (tt, {| self := self w;
                   phCalibrationFinish := phCalibrationFinish w;
                   enterCalibrationFlag := enterCalibrationFlag w;
                   nvs := <[key := value]> (nvs w) |},
            [preferences_putFloat key value]).

(** the same world over another store content *)
Definition with_store (store : gmap string float) (w : World) : World :=
  {| self := self w; phCalibrationFinish := phCalibrationFinish w;
     enterCalibrationFlag := enterCalibrationFlag w; nvs := store |}.

(** running a computation: the value, the world after, the trace *)
Definition result {A} (x : A * World * list Event) : A := fst (fst x).
Definition after {A} (x : A * World * list Event) : World := snd (fst x).
Definition trace {A} (x : A * World * list Event) : list Event := snd x.

(** ** C strings

    A C string is the sequence of its characters before the terminating
    NUL; [string] holds that sequence. *)

(** [strstr haystack needle]: the suffix of [haystack] that starts at the
    first occurrence of [needle], or [None] for the C null pointer. *)
Fixpoint strstr (haystack needle : string) : option string :=
  if String.prefix needle haystack then Some haystack
  else match haystack with
       | EmptyString => None
       | String _ rest => strstr rest needle
       end.

Definition toupper (c : ascii) : ascii :=
  let n := N_of_ascii c in
  if ((97 <=? n) && (n <=? 122))%N then ascii_of_N (n - 32) else c.

(** [strupr] rewrites the buffer in place; here it returns the new content. *)
Fixpoint strupr (s : string) : string :=
  match s with
  | EmptyString => EmptyString
  | String c rest => String (toupper c) (strupr rest)
  end.

(** ** The member functions *)

(** [DFRobotESPpH::DFRobotESPpH()]; the constructor leaves the members
    that [init] sets untouched, they are taken as zero until then. *)
Definition DFRobotESPpH_new : DFRobotESPpH :=
  {| PH_PIN := 0; ESPADC := S754_zero false; ESPVOLTAGE := 0;
     _phValue := F32.of_double d7_0;
     _acidVoltage := F32.of_double d1844_17;
     _neutralVoltage := F32.of_double d1348_68;
     _voltage := F32.of_double d1348_68;
     _temperature := F32.of_double d25_0 |}.

(** the world at start-up: a fresh object, both statics 0, a given store *)
Definition boot (store : gmap string float) : World :=
  {| self := DFRobotESPpH_new; phCalibrationFinish := false;
     enterCalibrationFlag := false; nvs := store |}.

Definition init (PH_PIN_in : Z) (ESPADC_in : float) (ESPVOLTAGE_in : Z) : Eff unit :=
  update_this (fun d =>
    {| PH_PIN := PH_PIN_in; ESPADC := ESPADC_in; ESPVOLTAGE := ESPVOLTAGE_in;
       _phValue := _phValue d; _acidVoltage := _acidVoltage d;
       _neutralVoltage := _neutralVoltage d; _voltage := _voltage d;
       _temperature := _temperature d |}).

Definition get_neutralVoltage : Eff float := this _neutralVoltage.

Definition begin : Eff unit :=
  emit (preferences_begin "pHVals" false);;
  x ← preferences_getFloat "voltage7" (F32.of_int 0);
  update_this (with_neutralVoltage x);;
  nV ← this _neutralVoltage;
  (if feq nV (F32.of_int 0)
   then update_this (with_neutralVoltage (F32.of_double d1348_68));;
        v ← this _neutralVoltage;
        preferences_put "voltage7" v
   else skip);;
  y ← preferences_getFloat "voltage4" (F32.of_int 0);
  update_this (with_acidVoltage y);;
  aV ← this _acidVoltage;
  (if feq aV (F32.of_int 0)
   then update_this (with_acidVoltage (F32.of_double d1844_17));;
        v ← this _acidVoltage;
        preferences_put "voltage4" v
   else skip);;
  emit preferences_end.

Definition readPH (voltage temperature : float) : Eff float :=
  nV ← this _neutralVoltage;
  aV ← this _acidVoltage;
  let slope : float := F32.of_double
    ((d7_0 - d4_0) / ((F64.of_float nV - d1500_0) / d3_0
                      - (F64.of_float aV - d1500_0) / d3_0))%D in
  let intercept : float := F32.of_double
    (d7_0 - F64.of_float slope * (F64.of_float nV - d1500_0) / d3_0)%D in
  update_this (with_phValue (F32.of_double
    (F64.of_float slope * (F64.of_float voltage - d1500_0) / d3_0
     + F64.of_float intercept)%D));;
  this _phValue.

(** the three assignments of [readPH], named for the statements below *)
Definition readPH_slope (neutralVoltage acidVoltage : float) : float :=
  F32.of_double
    ((d7_0 - d4_0) / ((F64.of_float neutralVoltage - d1500_0) / d3_0
                      - (F64.of_float acidVoltage - d1500_0) / d3_0))%D.
Definition readPH_intercept (slope neutralVoltage : float) : float :=
  F32.of_double
    (d7_0 - F64.of_float slope * (F64.of_float neutralVoltage - d1500_0) / d3_0)%D.
Definition readPH_value (slope intercept voltage : float) : float :=
  F32.of_double
    (F64.of_float slope * (F64.of_float voltage - d1500_0) / d3_0
     + F64.of_float intercept)%D.

(** [analogRead(PH_PIN)] is the converter's reading, an input here. *)
Definition getPH (temp_in : float) (analogRead : Z) : Eff float :=
  adc ← this ESPADC;
  vcc ← this ESPVOLTAGE;
  let voltage : float :=
    F32.mul (F32.div (F32.of_int analogRead) adc) (F32.of_int vcc) in
  emit (Serial_println_float voltage);;
  update_this (with_voltage voltage);;
  update_this (with_temperature temp_in);;
  readPH voltage temp_in.

Definition cmdParse (cmd : string) : Z :=
  let modeIndex := 0 in
  if strstr cmd "ENTERPH" is Some _ then 1
  else if strstr cmd "EXITPH" is Some _ then 3
  else if strstr cmd "CALPH" is Some _ then 2
  else modeIndex.

Definition manualCalibration (voltage7 voltage4 : float) : Eff unit :=
  emit (preferences_begin "pHVals" false);;
  nV ← this _neutralVoltage;
  preferences_put "voltage7" nV;;
  emit (Serial_println "PH 7 Calibration value saved");;
  aV ← this _acidVoltage;
  preferences_put "voltage4" aV;;
  emit (Serial_println "PH 4 Calibration value saved");;
  emit preferences_end.

(** ** Vocabulary of the specification, read off the observable behaviour *)

(** The four intents and the mode byte [cmdParse] returns for each. *)
Inductive Intent : Type :=
| IntentNone | EnterCalibration | TakeReading | ExitAndSave.

Definition mode_of (i : Intent) : Z :=
  match i with
  | IntentNone => 0
  | EnterCalibration => 1
  | TakeReading => 2
  | ExitAndSave => 3
  end.

(** [sub] occurs somewhere inside [s] *)
Definition contains (s sub : string) : Prop :=
  exists pre post : string, s = (pre ++ sub ++ post)%string.

(** The outcomes are the status lines the code prints. *)
Definition CommandError (out : list Event) : Prop :=
  In (Serial_println ">>>Command Error<<<") out.
Definition OutOfRangeSample (out : list Event) : Prop :=
  In (Serial_print ">>>Buffer Solution Error Try Again<<<") out.
Definition CalibrationSucceeded (out : list Event) : Prop :=
  In (Serial_print ">>>Calibration Successful") out.
Definition CalibrationFailed (out : list Event) : Prop :=
  In (Serial_print ">>>Calibration Failed") out.

(** some value is written to the store *)
Definition store_written (out : list Event) : Prop :=
  exists key value, In (preferences_putFloat key value) out.


(** The calls a sketch makes on the driver. *)
Inductive Call : Type :=
| Call_init (PH_PIN_in : Z) (ESPADC_in : float) (ESPVOLTAGE_in : Z)
| Call_begin
| Call_getPH (temp_in : float) (analogRead : Z)
| Call_readPH (voltage temperature : float)
| Call_calibration (cmd : string)
| Call_phCalibration (mode : Z)
| Call_manualCalibration (voltage7 voltage4 : float).

(** the statics of [phCalibration] never hold "finished" outside a session *)
Definition session_ok (w : World) : Prop :=
  phCalibrationFinish w = true -> enterCalibrationFlag w = true.

Definition Idle (w : World) : Prop :=
  enterCalibrationFlag w = false /\ phCalibrationFinish w = false.

(** The reference-band macros come from [dfrobot-esp-ph.h], which is not
    among the sources: they are parameters of the development, already
    converted to the type of the comparison. *)
Class Header : Type := {
  PH_8_VOLTAGE : float;
  PH_6_VOLTAGE : float;
  PH_5_VOLTAGE : float;
  PH_3_VOLTAGE : float
}.

Section Calibration.

Context {hdr : Header}.

Definition phCalibration (mode : Z) : Eff unit :=
  match mode with
  | 0 =>
      flag ← get_enterCalibrationFlag;
      if (flag : bool) then emit (Serial_println ">>>Command Error<<<") else skip
  | 1 =>
      set_enterCalibrationFlag true;;
      set_phCalibrationFinish false;;
      emit (Serial_println "");;
      emit (Serial_println ">>>Enter PH Calibration Mode<<<");;
      emit (Serial_println ">>>Please put the probe into the 4.0 or 7.0 standard buffer solution<<<");;
      emit (Serial_println "")
  | 2 =>
      flag ← get_enterCalibrationFlag;
      if (flag : bool) then
        v ← this _voltage;
        if fgt v PH_8_VOLTAGE && flt v PH_6_VOLTAGE then
          emit (Serial_println "");;
          emit (Serial_print ">>>Buffer Solution:7.0");;
          update_this (with_neutralVoltage v);;
          emit (Serial_println ",Send EXITPH to Save and Exit<<<");;
          emit (Serial_println "");;
          set_phCalibrationFinish true
        else if fgt v PH_5_VOLTAGE && flt v PH_3_VOLTAGE then
          emit (Serial_println "");;
          emit (Serial_print ">>>Buffer Solution:4.0");;
          update_this (with_acidVoltage v);;
          emit (Serial_println ",Send EXITPH to Save and Exit<<<");;
          emit (Serial_println "");;
          set_phCalibrationFinish true
        else
          emit (Serial_println "");;
          emit (Serial_print ">>>Buffer Solution Error Try Again<<<");;
          emit (Serial_println "");;
          set_phCalibrationFinish false
      else skip
  | 3 =>
      flag ← get_enterCalibrationFlag;
      if (flag : bool) then
        emit (Serial_println "");;
        emit (preferences_begin "pHVals" false);;
        finish ← get_phCalibrationFinish;
        (if (finish : bool) then
           v ← this _voltage;
           (if fgt v PH_8_VOLTAGE && flt v PH_5_VOLTAGE then
              nV ← this _neutralVoltage;
              preferences_put "voltage7" nV;;
              emit (Serial_print "PH 7 Calibration value SAVE THIS FOR LATER: ");;
              emit (Serial_print_float nV)
            else if fgt v PH_5_VOLTAGE && flt v PH_3_VOLTAGE then
              aV ← this _acidVoltage;
              preferences_put "voltage4" aV;;
              emit (Serial_print "PH 4 Calibration value SAVE THIS FOR LATER: ");;
              emit (Serial_print_float aV)
            else skip);;
           emit (Serial_print ">>>Calibration Successful")
         else
           emit (Serial_print ">>>Calibration Failed"));;
        emit preferences_end;;
        emit (Serial_println ",Exit PH Calibration Mode<<<");;
        emit (Serial_println "");;
        set_phCalibrationFinish false;;
        set_enterCalibrationFlag false
      else skip
  | _ => skip
  end.

(** [calibration(char *cmd)] *)
Definition calibration (cmd : string) : Eff unit :=
  phCalibration (cmdParse (strupr cmd)).

Definition call (c : Call) : Eff unit :=
  match c with
  | Call_init p a v => init p a v
  | Call_begin => begin
  | Call_getPH t a => getPH t a;; skip
  | Call_readPH v t => readPH v t;; skip
  | Call_calibration cmd => calibration cmd
  | Call_phCalibration mode => phCalibration mode
  | Call_manualCalibration v7 v4 => manualCalibration v7 v4
  end.

Fixpoint run (calls : list Call) : Eff unit :=
  match calls with
  | [] => skip
  | c :: rest => call c;; run rest
  end.

(** acceptance bands of [TakeReading], commit bands of [ExitAndSave] *)
Definition neutral_band (v : float) : bool :=
  fgt v PH_8_VOLTAGE && flt v PH_6_VOLTAGE.
Definition acid_band (v : float) : bool :=
  fgt v PH_5_VOLTAGE && flt v PH_3_VOLTAGE.
Definition neutral_commit_band (v : float) : bool :=
  fgt v PH_8_VOLTAGE && flt v PH_5_VOLTAGE.
Definition acid_commit_band (v : float) : bool :=
  fgt v PH_5_VOLTAGE && flt v PH_3_VOLTAGE.

End Calibration.

(** Band limits used to instantiate the general statements at concrete
    inputs: the values 1122, 1478, 1654 and 2010 mV of the DFRobot header
    this driver derives from. *)
Definition typical_header : Header :=
  {| PH_8_VOLTAGE := F32.of_int 1122;
     PH_6_VOLTAGE := F32.of_int 1478;
     PH_5_VOLTAGE := F32.of_int 1654;
     PH_3_VOLTAGE := F32.of_int 2010 |}.

(** ** Concrete scenarios

    A 12-bit converter on a 3300 mV supply: a reading of 1614 is
    1300.34 mV (inside the typical neutral band), 2234 is 1799.87 mV
    (inside the typical acid band), 3600 is 2900.39 mV (outside both). *)
Definition sketch_setup : list Call :=
  [Call_init 35 (F32.of_int 4096) 3300; Call_begin].

Definition mV_of_reading (analogRead : Z) : float :=
  F32.mul (F32.div (F32.of_int analogRead) (F32.of_int 4096)) (F32.of_int 3300).

(** a session with a neutral sample accepted, probe still in the buffer *)
Definition neutral_sampled : World :=
  after (run (hdr := typical_header)
           (sketch_setup ++
            [Call_calibration "enterph"; Call_getPH (F32.of_int 25) 1614;
             Call_calibration "calph"])
           (boot ∅)).

(** a session with an acid sample accepted, probe still in the buffer *)
Definition acid_sampled : World :=
  after (run (hdr := typical_header)
           (sketch_setup ++
            [Call_calibration "enterph"; Call_getPH (F32.of_int 25) 2234;
             Call_calibration "calph"])
           (boot ∅)).

(** the neutral sample accepted, then the probe taken out before the exit *)
Definition sampled_then_moved : World :=
  after (getPH (F32.of_int 25) 3600 neutral_sampled).

(** the neutral sample accepted, then a second TakeReading out of range *)
Definition sampled_then_rejected : World :=
  after (calibration (hdr := typical_header) "calph" sampled_then_moved).

(** a session just entered, no TakeReading yet *)
Definition session_entered : World :=
  after (run (hdr := typical_header)
           (sketch_setup ++ [Call_calibration "enterph"]) (boot ∅)).


(** start-up over a store that holds the same voltage, 1400 mV, for both *)
Definition equal_constants : World :=
  after (begin (boot (<["voltage4" := F32.of_int 1400]>
                        (<["voltage7" := F32.of_int 1400]> ∅)))).

(** ** Further vocabulary *)

(** the calls that only take a pH reading *)
Definition is_reading (c : Call) : Prop :=
  match c with
  | Call_getPH _ _ | Call_readPH _ _ => True
  | _ => False
  end.

(** the two keys of the calibration store *)
Definition calibration_key (key : string) : Prop :=
  key = "voltage7"%string \/ key = "voltage4"%string.

(** ** The command transport

    [cmdSerialDataAvailable] and the functions that poll it read the serial
    port and the millisecond clock. Both are inputs here: the port is the
    queue of bytes waiting to be read, the clock is the sequence of values
    successive [millis()] calls return. *)

(** [ReceivedBufferLength] is a macro of the missing header, and the clock
    belongs to the board: both are parameters. *)
Class Receiver : Type := {
  ReceivedBufferLength : Z;
  millis : nat -> Z      (* the value of the k-th millis() call *)
}.

Record Transport : Type := {
  _cmdReceivedBuffer : list ascii;       (* char [ReceivedBufferLength] *)
  _cmdReceivedBufferIndex : Z;    (* its C type is in the missing header *)
  cmdReceivedTimeOut : option Z;  (* static local; None until first reached *)
  Serial_rx : list ascii;         (* bytes Serial.available() counts *)
  millis_calls : nat              (* millis() calls made so far *)
}.

Definition NUL : ascii := Ascii.zero.
Definition newline : ascii := "010"%char.

(** [unsigned long] arithmetic, 32 bits wide on the ESP32 *)
Definition ulong (z : Z) : Z := z mod 2 ^ 32.

(** [memset(buf, 0, n)]; [None] when it would write outside the array *)
Definition memset_zero (n : Z) (buf : list ascii) : option (list ascii) :=
  if (0 <=? n) && (n <=? Z.of_nat (length buf))
  then Some (replicate (Z.to_nat n) NUL ++ drop (Z.to_nat n) buf)
  else None.

(** [buf[i] = c]; [None] when [i] is outside the array *)
Definition store_char (i : Z) (c : ascii) (buf : list ascii) : option (list ascii) :=
  if (0 <=? i) && (i <? Z.of_nat (length buf))
  then Some (<[Z.to_nat i := c]> buf)
  else None.

(** [strupr] on a char array: upper-cases up to the first NUL; [None] when
    the array holds no NUL and the scan would leave it *)
Fixpoint buf_strupr (buf : list ascii) : option (list ascii) :=
  match buf with
  | [] => None
  | c :: rest =>
      if Ascii.eqb c NUL then Some buf
      else cons (toupper c) <$> buf_strupr rest
  end.

(** the C string a char array holds: its characters before the first NUL *)
Fixpoint c_str (buf : list ascii) : string :=
  match buf with
  | [] => EmptyString
  | c :: rest => if Ascii.eqb c NUL then EmptyString else String c (c_str rest)
  end.

Section Reception.

Context {rcv : Receiver}.

(** the [while (Serial.available() > 0)] loop, one byte per iteration;
    [timeout] is the current value of the static [cmdReceivedTimeOut] *)
Fixpoint receive (rx : list ascii) (buf : list ascii) (index : Z)
    (timeout : Z) (calls : nat) : option (bool * Transport) :=
  match rx with
  | [] =>
      Some (false,
            {| _cmdReceivedBuffer := buf; _cmdReceivedBufferIndex := index;
               cmdReceivedTimeOut := Some timeout; Serial_rx := [];
               millis_calls := calls |})
  | cmdReceivedChar :: rest =>
      cleared ← (if 500 <? ulong (millis calls - timeout)
                 then pair 0 <$> memset_zero ReceivedBufferLength buf
                 else Some (index, buf));
      let '(index, buf) := cleared in
      let timeout := millis (S calls) in
      if Ascii.eqb cmdReceivedChar newline
         || (index =? ReceivedBufferLength - 1)
      then
        buf ← buf_strupr buf;
        Some (true,
              {| _cmdReceivedBuffer := buf; _cmdReceivedBufferIndex := 0;
                 cmdReceivedTimeOut := Some timeout; Serial_rx := rest;
                 millis_calls := S (S calls) |})
      else
        buf ← store_char index cmdReceivedChar buf;
        receive rest buf (index + 1) timeout (S (S calls))
  end.

(** [None] is undefined behaviour: an access outside the buffer *)
Definition cmdSerialDataAvailable (t : Transport) : option (bool * Transport) :=
  let '(timeout, calls) :=
    match cmdReceivedTimeOut t with
    | Some timeout => (timeout, millis_calls t)
    | None => (millis (millis_calls t), S (millis_calls t))
    end in
  receive (Serial_rx t) (_cmdReceivedBuffer t) (_cmdReceivedBufferIndex t)
          timeout calls.

(** the stamp the first timeout test of a poll compares with, and the index
    of the clock reading that test makes *)
Definition armed (t : Transport) : Z * nat :=
  match cmdReceivedTimeOut t with
  | Some timeout => (timeout, millis_calls t)
  | None => (millis (millis_calls t), S (millis_calls t))
  end.

(** [byte cmdParse()], the overload that reads the receive buffer *)
Definition cmdParse_buffer (t : Transport) : Z :=
  cmdParse (c_str (_cmdReceivedBuffer t)).

(** more bytes reach the port between two polls *)
Definition arrive (bytes : list ascii) (t : Transport) : Transport :=
  {| _cmdReceivedBuffer := _cmdReceivedBuffer t;
     _cmdReceivedBufferIndex := _cmdReceivedBufferIndex t;
     cmdReceivedTimeOut := cmdReceivedTimeOut t;
     Serial_rx := Serial_rx t ++ bytes;
     millis_calls := millis_calls t |}.

(** the buffer is the declared array, the index is inside it, and the last
    cell holds the terminator *)
Definition receiver_ok (t : Transport) : Prop :=
  Z.of_nat (length (_cmdReceivedBuffer t)) = ReceivedBufferLength
  /\ 0 <= _cmdReceivedBufferIndex t <= ReceivedBufferLength - 1
  /\ _cmdReceivedBuffer t !! Z.to_nat (ReceivedBufferLength - 1) = Some NUL.

(** none of the next [n] timeout tests fires, starting at the [calls]-th
    clock reading with the stamp [timeout] *)
Fixpoint calm (n : nat) (timeout : Z) (calls : nat) : Prop :=
  match n with
  | O => True
  | S n' =>
      ulong (millis calls - timeout) <= 500
      /\ calm n' (millis (S calls)) (S (S calls))
  end.

End Reception.

(** ** The polling entry points *)

(** C [atoi] on a string: leading white space, an optional sign, then
    decimal digits up to the first other character. (C leaves a value
    outside [int] undefined; the value is kept as it is here, the callers
    below never look at it.) *)
Definition isspace (c : ascii) : bool :=
  let n := N_of_ascii c in (((9 <=? n) && (n <=? 13)) || (n =? 32))%N.

Definition digit_value (c : ascii) : option Z :=
  let n := N_of_ascii c in
  if ((48 <=? n) && (n <=? 57))%N then Some (Z.of_N n - 48) else None.

Fixpoint atoi_digits (s : string) (acc : Z) : Z :=
  match s with
  | EmptyString => acc
  | String c rest =>
      match digit_value c with
      | Some d => atoi_digits rest (10 * acc + d)
      | None => acc
      end
  end.

Fixpoint skip_space (s : string) : string :=
  match s with
  | String c rest => if isspace c then skip_space rest else s
  | EmptyString => s
  end.

Definition atoi (s : string) : Z :=
  match skip_space s with
  | String "-" rest => - atoi_digits rest 0
  | String "+" rest => atoi_digits rest 0
  | digits => atoi_digits digits 0
  end.

(** how a call that polls the port can end *)
Inductive Outcome (A : Type) : Type :=
| Done (a : A)     (* it returns *)
| Hangs            (* it polls for ever *)
| Undefined.       (* it accesses memory outside the buffer *)
Arguments Done {A} a.
Arguments Hangs {A}.
Arguments Undefined {A}.

Section Polling.

Context {hdr : Header} {rcv : Receiver}.

(** [while (cmdSerialDataAvailable() <= 0) {}]. [Serial_rx] holds every
    byte that is still to come; a poll that drains it without completing
    a line leaves nothing for the later polls, which then repeat for
    ever. *)
Definition wait_for_line (t : Transport) : Outcome Transport :=
  match cmdSerialDataAvailable t with
  | None => Undefined
  | Some (true, t') => Done t'
  | Some (false, _) => Hangs
  end.

(** [void calibration()], the overload that polls the port *)
Definition calibration_serial (w : World) (t : Transport)
    : Outcome (World * Transport * list Event) :=
  match cmdSerialDataAvailable t with
  | None => Undefined
  | Some (false, t1) => Done (w, t1, [])
  | Some (true, t1) =>
      if strstr (c_str (_cmdReceivedBuffer t1)) "MANCALPH" is Some _ then
        let out4 := [Serial_println "Manual Calibration: Please enter the voltage value for pH 4"] in
        match wait_for_line t1 with
        | Undefined => Undefined
        | Hangs => Hangs
        | Done t2 =>
            if strstr (c_str (_cmdReceivedBuffer t2)) "EXIT" is Some _ then
              Done (w, t2, out4)
            else
              let v7 := atoi (c_str (_cmdReceivedBuffer t2)) in
              let out7 := [Serial_println "Manual Calibration: Please enter the voltage value for pH 7"] in
              match wait_for_line t2 with
              | Undefined => Undefined
              | Hangs => Hangs
              | Done t3 =>
                  if strstr (c_str (_cmdReceivedBuffer t3)) "EXIT" is Some _ then
                    Done (w, t3, out4 ++ out7)
                  else
                    let v4 := atoi (c_str (_cmdReceivedBuffer t3)) in
                    let r := manualCalibration (F32.of_int v7) (F32.of_int v4) w in
                    Done (after r, t3, out4 ++ out7 ++ trace r)
              end
        end
      else
        let r := phCalibration (cmdParse_buffer t1) w in
        Done (after r, t1, trace r)
  end.

(** [void manualCalibration()], the overload without arguments: it polls
    the port once and does nothing with the answer *)
Definition manualCalibration_serial (t : Transport) : option Transport :=
  snd <$> cmdSerialDataAvailable t.

End Polling.

(** ** Concrete receivers

    The buffer length 10 is the value of the DFRobot header this driver
    derives from. *)

(** a clock that advances one millisecond per reading *)
Definition steady_receiver : Receiver :=
  {| ReceivedBufferLength := 10; millis := fun k => Z.of_nat k |}.

(** the same clock with a pause of one second after the 17th reading *)
Definition paused_receiver : Receiver :=
  {| ReceivedBufferLength := 10;
     millis := fun k => if (k <? 17)%nat then Z.of_nat k else 1000 + Z.of_nat k |}.

(** the bytes of a command line, newline included *)
Definition line_bytes (s : string) : list ascii :=
  list_ascii_of_string s ++ [newline].

(** a zeroed receive buffer of length 10, nothing polled yet *)
Definition fresh_transport (rx : list ascii) : Transport :=
  {| _cmdReceivedBuffer := replicate 10 NUL; _cmdReceivedBufferIndex := 0;
     cmdReceivedTimeOut := None; Serial_rx := rx; millis_calls := 0 |}.

(** the transport after "ENTERPH" has been received, with [rx] arriving *)
Definition after_enterph (rcv : Receiver) (rx : list ascii) : Transport :=
  match cmdSerialDataAvailable (rcv := rcv) (fresh_transport (line_bytes "ENTERPH")) with
  | Some (_, t) => arrive rx t
  | None => fresh_transport rx
  end.

(** * Correct rounding of the floating operations

    [SpecFloat] rounds by shifting a mantissa right, one bit at a time,
    keeping a round bit and a sticky bit, and then rounding to nearest,
    ties to even. This part relates that computation to the exact
    rational value of each operation, and then bounds the error of the
    linear model of [readPH] between its two reference points. *)

(** ** The shifts as truncated quotients

    The record that [shr_1] works on is the truncated quotient [N / D]
    together with the position of [N / D] (exact) in its unit interval.
    One right shift doubles the denominator. *)













(** ** [binary_round_aux] in the normal range

    With at least [prec] digits in the mantissa, an exponent above the
    subnormal range and below overflow, the result is finite, has exactly
    [prec] digits, and its mantissa is the rounded quotient. *)

Section Rounding.
Variables prec emax : Z.
Hypothesis Hprec : 0 < prec.


End Rounding.

(** ** Powers of two in Q *)










(** ** The error of one rounding, in Q *)



Section RoundingQ.
Variables prec emax : Z.
Hypothesis Hprec : 1 < prec.







(** ** The operations of [SpecFloat]: a correctly rounded exact result *)
















End RoundingQ.

(** ** Relative error

    [close g v t]: [v] is within the relative error [g] of [t]. *)











(** ** The two C precisions *)



















(** ** Interval helpers *)







(** ** The linear model between its two reference points *)

(** Both reference voltages are taken through the same double-precision
    product [slope * (v - 1500) / 3]. With the neutral constant below
    1500 mV and the acid constant above, the two products are [XI] in
    (0, 3) and [XI - 3], each to a relative error of one binary32 rounding
    (that of the slope) and a few binary64 roundings. *)








Section Properties.

Context {hdr : Header}.

(** ** Proof support *)

Ltac eff_unfold :=
  cbv [phCalibration calibration call manualCalibration begin readPH getPH
       init get_neutralVoltage
       mbind mret Eff_bind Eff_ret eff_bind eff_ret emit skip this
       update_this get_phCalibrationFinish get_enterCalibrationFlag
       set_phCalibrationFinish set_enterCalibrationFlag
       preferences_getFloat preferences_put
       with_phValue with_acidVoltage with_neutralVoltage with_voltage
       with_temperature
       result after trace fst snd app
       self phCalibrationFinish enterCalibrationFlag nvs
       PH_PIN ESPADC ESPVOLTAGE _phValue _acidVoltage _neutralVoltage
       _voltage _temperature
       neutral_band acid_band neutral_commit_band acid_commit_band
       CommandError OutOfRangeSample CalibrationSucceeded CalibrationFailed
       store_written Idle session_ok].

Ltac in_trace :=
  repeat match goal with
    | |- In _ _ => simpl; tauto
    | |- ~ In _ _ => simpl; intuition discriminate
    | |- ~ (exists _, _) => intros (? & ? & ?)
    | H : In _ _ |- _ => simpl in H; intuition discriminate
    end.

(** ** The state machine, one intent at a time *)

Lemma phCalibration_idle_noop (w : World) (mode : Z) :
  enterCalibrationFlag w = false -> mode <> 1 ->
  phCalibration mode w = (tt, w, []).
Proof.
  intros Hidle Hmode. destruct w as [d fin ent st]; simpl in Hidle; subst ent.
  destruct mode as [|[p|p|]|]; try reflexivity;
    try (destruct p as [p|p|]; try reflexivity;
         destruct p; reflexivity).
  congruence.
Qed.

Lemma phCalibration_other_mode (w : World) (mode : Z) :
  mode <> 0 -> mode <> 1 -> mode <> 2 -> mode <> 3 ->
  phCalibration mode w = (tt, w, []).
Proof.
  intros H0 H1 H2 H3.
  destruct mode as [|[p|p|]|]; try reflexivity; try congruence;
    destruct p; try reflexivity; congruence.
Qed.

(** C5 (as amended): with no session active, every intent other than
    EnterCalibration -- TakeReading, ExitAndSave, none -- is a silent
    no-op: nothing is printed, so no CommandError is reported, and the
    flags, the constants and the store are unchanged. CommandError is
    reported exactly for the none intent arriving during an active
    session. *)
Theorem idle_intents_are_silent (w : World) (mode : Z) :
  (enterCalibrationFlag w = false -> mode <> mode_of EnterCalibration ->
     phCalibration mode w = (tt, w, []))
  /\ (CommandError (trace (phCalibration mode w)) <->
      mode = mode_of IntentNone /\ enterCalibrationFlag w = true).
Proof.
  split.
  - intros Hidle Hmode. now apply phCalibration_idle_noop.
  - destruct (Z.eq_dec mode 0) as [->|H0].
    { destruct w as [d fin [|] st]; eff_unfold; simpl; intuition congruence. }
    destruct (Z.eq_dec mode 1) as [->|H1].
    { eff_unfold. simpl. intuition congruence. }
    destruct (Z.eq_dec mode 2) as [->|H2].
    { destruct w as [d fin [|] st]; eff_unfold;
        repeat match goal with |- context [if ?b then _ else _] => destruct b end;
        simpl; intuition congruence. }
    destruct (Z.eq_dec mode 3) as [->|H3].
    { destruct w as [d [|] [|] st]; eff_unfold;
        repeat match goal with |- context [if ?b then _ else _] => destruct b end;
        simpl; intuition congruence. }
    rewrite phCalibration_other_mode by assumption.
    simpl. unfold CommandError. simpl. intuition congruence.
Qed.

Lemma take_reading_cases (w : World) :
  enterCalibrationFlag w = true ->
  let v := _voltage (self w) in
  let r := phCalibration 2 w in
  (neutral_band v = true ->
     _neutralVoltage (self (after r)) = v
     /\ phCalibrationFinish (after r) = true
     /\ ~ OutOfRangeSample (trace r))
  /\ (neutral_band v = false -> acid_band v = true ->
     _acidVoltage (self (after r)) = v
     /\ phCalibrationFinish (after r) = true
     /\ ~ OutOfRangeSample (trace r))
  /\ (neutral_band v = false -> acid_band v = false ->
     OutOfRangeSample (trace r)
     /\ phCalibrationFinish (after r) = false
     /\ _neutralVoltage (self (after r)) = _neutralVoltage (self w)
     /\ _acidVoltage (self (after r)) = _acidVoltage (self w))
  /\ enterCalibrationFlag (after r) = true.
Proof.
  intros Hact v r. subst v r.
  destruct w as [d fin ent st]; simpl in Hact; subst ent.
  eff_unfold.
  destruct (fgt _ PH_8_VOLTAGE && flt _ PH_6_VOLTAGE);
    [| destruct (fgt _ PH_5_VOLTAGE && flt _ PH_3_VOLTAGE)];
    repeat split; intros; try congruence; try reflexivity; in_trace.
Qed.

(** a voltage reading touches neither the session flags, nor the
    calibration constants, nor the store *)
Lemma getPH_frame (temp_in : float) (analogRead : Z) (w : World) :
  let w2 := after (getPH temp_in analogRead w) in
  phCalibrationFinish w2 = phCalibrationFinish w
  /\ enterCalibrationFlag w2 = enterCalibrationFlag w
  /\ nvs w2 = nvs w
  /\ _neutralVoltage (self w2) = _neutralVoltage (self w)
  /\ _acidVoltage (self w2) = _acidVoltage (self w).
Proof.
  destruct w as [d fin ent st]. eff_unfold. repeat split.
Qed.

(** C6: during an active session a TakeReading classifies the live voltage
    [v]: in the neutral band the neutral candidate becomes [v] and the
    sample is marked accepted; otherwise in the acid band the acid
    candidate becomes [v] and the sample is marked accepted; otherwise
    OutOfRangeSample is reported, the accepted flag is cleared and neither
    candidate changes. The session stays active, and a TakeReading after a
    further voltage reading applies the same rule to the new voltage,
    whatever the first one decided: the last accepted sample wins. *)
Theorem take_reading_classifies (w : World) :
  enterCalibrationFlag w = true ->
  let v := _voltage (self w) in
  let r := phCalibration (mode_of TakeReading) w in
  (neutral_band v = true ->
     _neutralVoltage (self (after r)) = v
     /\ phCalibrationFinish (after r) = true
     /\ ~ OutOfRangeSample (trace r))
  /\ (neutral_band v = false -> acid_band v = true ->
     _acidVoltage (self (after r)) = v
     /\ phCalibrationFinish (after r) = true
     /\ ~ OutOfRangeSample (trace r))
  /\ (neutral_band v = false -> acid_band v = false ->
     OutOfRangeSample (trace r)
     /\ phCalibrationFinish (after r) = false
     /\ _neutralVoltage (self (after r)) = _neutralVoltage (self w)
     /\ _acidVoltage (self (after r)) = _acidVoltage (self w))
  /\ enterCalibrationFlag (after r) = true
  /\ (forall (temp_in : float) (analogRead : Z),
       let w2 := after (getPH temp_in analogRead (after r)) in
       let v2 := _voltage (self w2) in
       let r2 := phCalibration (mode_of TakeReading) w2 in
       (neutral_band v2 = true ->
          _neutralVoltage (self (after r2)) = v2
          /\ phCalibrationFinish (after r2) = true)
       /\ (neutral_band v2 = false -> acid_band v2 = true ->
          _acidVoltage (self (after r2)) = v2
          /\ phCalibrationFinish (after r2) = true)
       /\ (neutral_band v2 = false -> acid_band v2 = false ->
          OutOfRangeSample (trace r2)
          /\ phCalibrationFinish (after r2) = false
          /\ _neutralVoltage (self (after r2)) = _neutralVoltage (self (after r))
          /\ _acidVoltage (self (after r2)) = _acidVoltage (self (after r)))).
Proof.
  intros Hact. cbv zeta.
  pose proof (take_reading_cases w Hact) as Hw. cbv zeta in Hw.
  set (r := phCalibration (mode_of TakeReading) w) in *.
  destruct Hw as (Hn & Ha & Ho & Hent).
  split; [exact Hn | split; [exact Ha | split; [exact Ho | split; [exact Hent |]]]].
  intros temp_in analogRead.
  pose proof (getPH_frame temp_in analogRead (after r)) as HF. cbv zeta in HF.
  set (w2 := after (getPH temp_in analogRead (after r))) in *.
  destruct HF as (Hfin & Hflag & Hst & HnV & HaV).
  assert (Hact2 : enterCalibrationFlag w2 = true) by (rewrite Hflag; exact Hent).
  pose proof (take_reading_cases w2 Hact2) as Hw2. cbv zeta in Hw2.
  destruct Hw2 as (Hn2 & Ha2 & Ho2 & _).
  split; [| split].
  - intros H. destruct (Hn2 H) as (? & ? & ?). now split.
  - intros H H'. destruct (Ha2 H H') as (? & ? & ?). now split.
  - intros H H'. destruct (Ho2 H H') as (H1 & H2 & H3 & H4).
    rewrite HnV in H3. rewrite HaV in H4. now repeat split.
Qed.

(** C10: one TakeReading changes at most one of the two constants: an
    accepted neutral-band sample leaves [_acidVoltage] as it was, an
    accepted acid-band sample leaves [_neutralVoltage] as it was, an
    out-of-band sample leaves both; and no TakeReading writes the store. *)
Theorem take_reading_frame (w : World) :
  let v := _voltage (self w) in
  let r := phCalibration (mode_of TakeReading) w in
  (_neutralVoltage (self (after r)) = _neutralVoltage (self w)
   \/ _acidVoltage (self (after r)) = _acidVoltage (self w))
  /\ (enterCalibrationFlag w = true -> neutral_band v = true ->
      _acidVoltage (self (after r)) = _acidVoltage (self w))
  /\ (enterCalibrationFlag w = true ->
      neutral_band v = false -> acid_band v = true ->
      _neutralVoltage (self (after r)) = _neutralVoltage (self w))
  /\ (neutral_band v = false -> acid_band v = false ->
      _neutralVoltage (self (after r)) = _neutralVoltage (self w)
      /\ _acidVoltage (self (after r)) = _acidVoltage (self w))
  /\ nvs (after r) = nvs w
  /\ ~ store_written (trace r).
Proof.
  intros v r. subst v r.
  destruct w as [d fin [|] st]; unfold mode_of; eff_unfold;
    repeat match goal with
      | |- context [if ?b then _ else _] => destruct b eqn:?
      end;
    repeat split; intros; try congruence; try reflexivity;
    try (left; reflexivity); try (right; reflexivity); in_trace.
Qed.

(** C1 (as amended): on ExitAndSave during an active session, the outcome
    is decided by the accepted flag alone. With a sample accepted the
    outcome is CalibrationSucceeded: if the last live voltage lies in the
    neutral commit band (PH_8_VOLTAGE < v < PH_5_VOLTAGE) the neutral
    constant is written under "voltage7"; otherwise, if it lies in the acid
    commit band (PH_5_VOLTAGE < v < PH_3_VOLTAGE), the acid constant is
    written under "voltage4"; otherwise the store is not written and
    CalibrationSucceeded is reported all the same. With no sample accepted
    the outcome is CalibrationFailed and the store is not written. *)
Theorem exit_and_save_outcome (w : World) :
  enterCalibrationFlag w = true ->
  let v := _voltage (self w) in
  let r := phCalibration (mode_of ExitAndSave) w in
  (phCalibrationFinish w = true -> neutral_commit_band v = true ->
     In (preferences_putFloat "voltage7" (_neutralVoltage (self w))) (trace r)
     /\ nvs (after r) = <["voltage7" := _neutralVoltage (self w)]> (nvs w)
     /\ CalibrationSucceeded (trace r) /\ ~ CalibrationFailed (trace r))
  /\ (phCalibrationFinish w = true ->
     neutral_commit_band v = false -> acid_commit_band v = true ->
     In (preferences_putFloat "voltage4" (_acidVoltage (self w))) (trace r)
     /\ nvs (after r) = <["voltage4" := _acidVoltage (self w)]> (nvs w)
     /\ CalibrationSucceeded (trace r) /\ ~ CalibrationFailed (trace r))
  /\ (phCalibrationFinish w = true ->
     neutral_commit_band v = false -> acid_commit_band v = false ->
     CalibrationSucceeded (trace r) /\ ~ CalibrationFailed (trace r)
     /\ nvs (after r) = nvs w /\ ~ store_written (trace r))
  /\ (phCalibrationFinish w = false ->
     CalibrationFailed (trace r) /\ ~ CalibrationSucceeded (trace r)
     /\ nvs (after r) = nvs w /\ ~ store_written (trace r)).
Proof.
  intros Hact v r. subst v r.
  destruct w as [d fin ent st]; simpl in Hact; subst ent.
  unfold mode_of. destruct fin; eff_unfold;
    repeat match goal with
      | |- context [if ?b then _ else _] => destruct b eqn:?
      end;
    repeat split; intros; try congruence; try reflexivity; in_trace.
Qed.

(** ** The command parser *)

Lemma append_cons (a : ascii) (s t : string) :
  (String a s ++ t)%string = String a (s ++ t)%string.
Proof. reflexivity. Qed.

Lemma append_nil (t : string) : (EmptyString ++ t)%string = t.
Proof. reflexivity. Qed.

Lemma prefix_app (n h : string) :
  String.prefix n h = true <-> exists post, h = (n ++ post)%string.
Proof.
  revert h. induction n as [|a n IH]; intros h.
  - destruct h; simpl; split; intros; eauto.
  - destruct h as [|b h]; simpl.
    + split; [discriminate |].
      intros [post H]. rewrite append_cons in H. discriminate.
    + destruct (Ascii.ascii_dec a b) as [->|Hab].
      * rewrite IH. split; intros [post H]; exists post.
        -- rewrite append_cons. congruence.
        -- rewrite append_cons in H. congruence.
      * split; [discriminate |].
        intros [post H]. rewrite append_cons in H. congruence.
Qed.

Lemma strstr_contains (h n : string) :
  is_Some (strstr h n) <-> contains h n.
Proof.
  induction h as [|c h IH]; cbn [strstr].
  - destruct (String.prefix n "") eqn:Hp.
    + split; [| intros _; eexists; reflexivity].
      intros _. apply prefix_app in Hp. destruct Hp as [post Hp].
      exists ""%string, post. exact Hp.
    + split; [intros [x Hx]; discriminate |].
      intros (pre & post & H). exfalso.
      destruct pre; [| rewrite append_cons in H; discriminate].
      rewrite append_nil in H.
      assert (String.prefix n "" = true) by (apply prefix_app; eauto).
      congruence.
  - destruct (String.prefix n (String c h)) eqn:Hp.
    + split; [| intros _; eexists; reflexivity].
      intros _. apply prefix_app in Hp. destruct Hp as [post Hp].
      exists ""%string, post. exact Hp.
    + rewrite IH. split.
      * intros (pre & post & ->). exists (String c pre), post. reflexivity.
      * intros (pre & post & H). destruct pre as [|c' pre].
        -- rewrite append_nil in H.
           assert (String.prefix n (String c h) = true)
             by (apply prefix_app; eauto).
           congruence.
        -- rewrite append_cons in H. exists pre, post. congruence.
Qed.

Lemma strstr_None (h n : string) : strstr h n = None <-> ~ contains h n.
Proof.
  rewrite <- strstr_contains, <- eq_None_not_Some. reflexivity.
Qed.

(** C7: the parser is total and gives every token exactly one of the four
    intents: a token containing "ENTERPH" is EnterCalibration; otherwise
    one containing "EXITPH" is ExitAndSave; otherwise one containing
    "CALPH" is TakeReading; any other token is the none intent. The order
    ENTERPH, EXITPH, CALPH decides for a token containing several. *)
Theorem cmdParse_total_in_order (cmd : string) :
  (exists! i : Intent, cmdParse cmd = mode_of i)
  /\ (contains cmd "ENTERPH" -> cmdParse cmd = mode_of EnterCalibration)
  /\ (~ contains cmd "ENTERPH" -> contains cmd "EXITPH" ->
      cmdParse cmd = mode_of ExitAndSave)
  /\ (~ contains cmd "ENTERPH" -> ~ contains cmd "EXITPH" ->
      contains cmd "CALPH" -> cmdParse cmd = mode_of TakeReading)
  /\ (~ contains cmd "ENTERPH" -> ~ contains cmd "EXITPH" ->
      ~ contains cmd "CALPH" -> cmdParse cmd = mode_of IntentNone).
Proof.
  unfold cmdParse.
  destruct (strstr cmd "ENTERPH") as [e|] eqn:He;
    [| destruct (strstr cmd "EXITPH") as [x|] eqn:Hx;
       [| destruct (strstr cmd "CALPH") as [c|] eqn:Hc]].
  all: try (assert (contains cmd "ENTERPH")
              by (apply strstr_contains; rewrite He; eauto)).
  all: try (assert (contains cmd "EXITPH")
              by (apply strstr_contains; rewrite Hx; eauto)).
  all: try (assert (contains cmd "CALPH")
              by (apply strstr_contains; rewrite Hc; eauto)).
  all: try apply strstr_None in He; try apply strstr_None in Hx;
    try apply strstr_None in Hc.
  all: split;
    [ first [ exists EnterCalibration; split; [reflexivity |]
            | exists ExitAndSave; split; [reflexivity |]
            | exists TakeReading; split; [reflexivity |]
            | exists IntentNone; split; [reflexivity |] ];
      intros [] Hi; simpl in Hi; congruence
    | repeat split; intros; try reflexivity; tauto ].
Qed.

(** ** Start-up and the manual path *)

Lemma feq_zero_inv (z : float) :
  feq z (F32.of_int 0) = true -> exists s, z = S754_zero s.
Proof.
  destruct z as [s|s| |s m e]; try (destruct s); try discriminate; eauto.
Qed.

(** what [begin] leaves, by the two sentinel tests *)
Lemma begin_eq (w : World) :
  let x := default (F32.of_int 0) (nvs w !! "voltage7") in
  let nV := if feq x (F32.of_int 0) then F32.of_double d1348_68 else x in
  let st1 := if feq x (F32.of_int 0) then <["voltage7" := nV]> (nvs w) else nvs w in
  let y := default (F32.of_int 0) (st1 !! "voltage4") in
  let aV := if feq y (F32.of_int 0) then F32.of_double d1844_17 else y in
  let st2 := if feq y (F32.of_int 0) then <["voltage4" := aV]> st1 else st1 in
  begin w =
    (tt,
     {| self := with_acidVoltage aV (with_neutralVoltage nV (self w));
        phCalibrationFinish := phCalibrationFinish w;
        enterCalibrationFlag := enterCalibrationFlag w;
        nvs := st2 |},
     [preferences_begin "pHVals" false]
     ++ (if feq x (F32.of_int 0) then [preferences_putFloat "voltage7" nV] else [])
     ++ (if feq y (F32.of_int 0) then [preferences_putFloat "voltage4" aV] else [])
     ++ [preferences_end]).
Proof.
  destruct w as [d fin ent st]. cbv zeta. simpl nvs.
  unfold begin.
  cbv [mbind mret Eff_bind Eff_ret eff_bind eff_ret emit skip this
       update_this preferences_getFloat preferences_put
       self phCalibrationFinish enterCalibrationFlag nvs].
  cbn [_neutralVoltage with_neutralVoltage].
  destruct (feq (default (F32.of_int 0) (st !! "voltage7")) (F32.of_int 0)) eqn:H7.
  - cbn [_neutralVoltage _acidVoltage with_neutralVoltage with_acidVoltage app].
    destruct (feq (default (F32.of_int 0) (_ !! "voltage4")) (F32.of_int 0)) eqn:H4;
      reflexivity.
  - cbn [_neutralVoltage _acidVoltage with_neutralVoltage with_acidVoltage app].
    destruct (feq (default (F32.of_int 0) (_ !! "voltage4")) (F32.of_int 0)) eqn:H4;
      reflexivity.
Qed.

Lemma begin_same_over_zero_or_absent (key : string) (z : float) (w : World) :
  key = "voltage7"%string \/ key = "voltage4"%string ->
  feq z (F32.of_int 0) = true ->
  begin (with_store (<[key := z]> (nvs w)) w)
  = begin (with_store (delete key (nvs w)) w).
Proof.
  intros Hkey Hz. destruct (feq_zero_inv z Hz) as [sg ->].
  rewrite !begin_eq. cbv zeta. destruct w as [d fin ent st].
  unfold with_store. cbn [self phCalibrationFinish enterCalibrationFlag nvs].
  destruct Hkey as [-> | ->].
  - rewrite lookup_insert_eq, lookup_delete_eq. cbn [default].
    replace (feq (S754_zero sg) (F32.of_int 0)) with true
      by (destruct sg; reflexivity).
    replace (feq (F32.of_int 0) (F32.of_int 0)) with true by reflexivity.
    rewrite insert_insert_eq, insert_delete_eq. reflexivity.
  - rewrite (lookup_insert_ne _ "voltage4" "voltage7") by discriminate.
    rewrite (lookup_delete_ne _ "voltage4" "voltage7") by discriminate.
    destruct (feq (default (F32.of_int 0) (st !! "voltage7")) (F32.of_int 0)).
    + rewrite !(lookup_insert_ne _ "voltage7" "voltage4") by discriminate.
      rewrite lookup_insert_eq, lookup_delete_eq. cbn [default].
      replace (feq (S754_zero sg) (F32.of_int 0)) with true
        by (destruct sg; reflexivity).
      replace (feq (F32.of_int 0) (F32.of_int 0)) with true by reflexivity.
      rewrite !(insert_insert_ne _ "voltage4" "voltage7") by discriminate.
      rewrite insert_insert_eq, insert_delete_eq. reflexivity.
    + rewrite lookup_insert_eq, lookup_delete_eq. cbn [default].
      replace (feq (S754_zero sg) (F32.of_int 0)) with true
        by (destruct sg; reflexivity).
      replace (feq (F32.of_int 0) (F32.of_int 0)) with true by reflexivity.
      rewrite insert_insert_eq, insert_delete_eq. reflexivity.
Qed.

(** C9: [begin] takes the exact value 0 for "nothing stored". For every
    store, if it returns 0 for "voltage7" (for "voltage4") the in-memory
    neutral (acid) constant becomes the default 1348.68 (1844.17) and that
    default is written back under the key. So a stored value of exactly 0
    cannot be told from an absent one: both start-ups end in the same
    world with the same calls, the 0 overwritten by the default. And 0 is
    the only such value: whatever else the store returns for a key, a
    number that does not compare equal to 0, an infinity or a NaN, is
    loaded into the constant as it is, stays in the store, and no write is
    sent for that key. *)
Theorem begin_zero_is_absence (w : World) :
  let r := begin w in
  (feq (result (preferences_getFloat "voltage7" (F32.of_int 0) w)) (F32.of_int 0) = true ->
     _neutralVoltage (self (after r)) = F32.of_double d1348_68
     /\ nvs (after r) !! "voltage7" = Some (F32.of_double d1348_68)
     /\ In (preferences_putFloat "voltage7" (F32.of_double d1348_68)) (trace r))
  /\ (feq (result (preferences_getFloat "voltage4" (F32.of_int 0) w)) (F32.of_int 0) = true ->
     _acidVoltage (self (after r)) = F32.of_double d1844_17
     /\ nvs (after r) !! "voltage4" = Some (F32.of_double d1844_17)
     /\ In (preferences_putFloat "voltage4" (F32.of_double d1844_17)) (trace r))
  /\ (forall z : float, feq z (F32.of_int 0) = true ->
      begin (with_store (<["voltage7" := z]> (nvs w)) w)
      = begin (with_store (delete "voltage7" (nvs w)) w)
      /\ nvs (after (begin (with_store (<["voltage7" := z]> (nvs w)) w))) !! "voltage7"
        = Some (F32.of_double d1348_68))
  /\ (forall z : float, feq z (F32.of_int 0) = true ->
      begin (with_store (<["voltage4" := z]> (nvs w)) w)
      = begin (with_store (delete "voltage4" (nvs w)) w)
      /\ nvs (after (begin (with_store (<["voltage4" := z]> (nvs w)) w))) !! "voltage4"
        = Some (F32.of_double d1844_17))
  /\ (feq (result (preferences_getFloat "voltage7" (F32.of_int 0) w)) (F32.of_int 0) = false ->
      _neutralVoltage (self (after r))
      = result (preferences_getFloat "voltage7" (F32.of_int 0) w)
      /\ nvs w !! "voltage7" = Some (_neutralVoltage (self (after r)))
      /\ nvs (after r) !! "voltage7" = nvs w !! "voltage7"
      /\ forall value : float, ~ In (preferences_putFloat "voltage7" value) (trace r))
  /\ (feq (result (preferences_getFloat "voltage4" (F32.of_int 0) w)) (F32.of_int 0) = false ->
      _acidVoltage (self (after r))
      = result (preferences_getFloat "voltage4" (F32.of_int 0) w)
      /\ nvs w !! "voltage4" = Some (_acidVoltage (self (after r)))
      /\ nvs (after r) !! "voltage4" = nvs w !! "voltage4"
      /\ forall value : float, ~ In (preferences_putFloat "voltage4" value) (trace r)).
Proof.
  cbv zeta. unfold preferences_getFloat, result. cbn [fst].
  assert (H7 : forall w0 : World,
    feq (default (F32.of_int 0) (nvs w0 !! "voltage7")) (F32.of_int 0) = true ->
     _neutralVoltage (self (after (begin w0))) = F32.of_double d1348_68
     /\ nvs (after (begin w0)) !! "voltage7" = Some (F32.of_double d1348_68)
     /\ In (preferences_putFloat "voltage7" (F32.of_double d1348_68)) (trace (begin w0))).
  { intros w0 H. rewrite begin_eq. cbv zeta. rewrite H.
    unfold after, trace. cbn [fst snd self nvs].
    split; [reflexivity |]. split.
    - destruct (feq (default _ (_ !! "voltage4")) _).
      + rewrite lookup_insert_ne by discriminate. apply lookup_insert_eq.
      + apply lookup_insert_eq.
    - cbn [In app]. tauto. }
  assert (H4 : forall w0 : World,
    feq (default (F32.of_int 0) (nvs w0 !! "voltage4")) (F32.of_int 0) = true ->
     _acidVoltage (self (after (begin w0))) = F32.of_double d1844_17
     /\ nvs (after (begin w0)) !! "voltage4" = Some (F32.of_double d1844_17)
     /\ In (preferences_putFloat "voltage4" (F32.of_double d1844_17)) (trace (begin w0))).
  { intros w0 H. rewrite begin_eq. cbv zeta.
    assert (Hy : forall st1 : gmap string float,
              st1 = nvs w0 \/ st1 = <["voltage7" := F32.of_double d1348_68]> (nvs w0) ->
              feq (default (F32.of_int 0) (st1 !! "voltage4")) (F32.of_int 0) = true).
    { intros st1 [-> | ->]; [exact H |].
      rewrite lookup_insert_ne by discriminate. exact H. }
    unfold after, trace. cbn [fst snd self nvs].
    destruct (feq (default (F32.of_int 0) (nvs w0 !! "voltage7")) (F32.of_int 0)).
    - rewrite (Hy _ (or_intror eq_refl)).
      split; [reflexivity |]. split; [apply lookup_insert_eq |].
      cbn [In app]. tauto.
    - rewrite (Hy _ (or_introl eq_refl)).
      split; [reflexivity |]. split; [apply lookup_insert_eq |].
      cbn [In app]. tauto. }
  assert (Hkept : forall (st : gmap string float) (key : string),
    feq (default (F32.of_int 0) (st !! key)) (F32.of_int 0) = false ->
    st !! key = Some (default (F32.of_int 0) (st !! key))).
  { intros st key H. destruct (st !! key) as [v |]; [reflexivity |].
    exfalso. revert H. vm_compute. discriminate. }
  split; [apply H7 |]. split; [apply H4 |].
  split; [| split; [| split]].
  - intros z Hz. split.
    + apply begin_same_over_zero_or_absent; auto.
    + apply H7. unfold with_store. cbn [nvs].
      rewrite lookup_insert_eq. exact Hz.
  - intros z Hz. split.
    + apply begin_same_over_zero_or_absent; auto.
    + apply H4. unfold with_store. cbn [nvs].
      rewrite lookup_insert_eq. exact Hz.
  - intros H. rewrite begin_eq. cbv zeta. rewrite H.
    unfold after, trace. cbn [fst snd self nvs].
    split; [reflexivity |]. split; [apply Hkept, H |]. split.
    + destruct (feq (default _ (_ !! "voltage4")) _); [| reflexivity].
      apply lookup_insert_ne. discriminate.
    + intros value Hin.
      destruct (feq (default _ (_ !! "voltage4")) _);
        cbn [In app] in Hin; intuition discriminate.
  - intros H. rewrite begin_eq. cbv zeta.
    assert (Hy : forall st1 : gmap string float,
              st1 = nvs w \/ st1 = <["voltage7" := F32.of_double d1348_68]> (nvs w) ->
              default (F32.of_int 0) (st1 !! "voltage4")
              = default (F32.of_int 0) (nvs w !! "voltage4")).
    { intros st1 [-> | ->]; [reflexivity |].
      rewrite lookup_insert_ne by discriminate. reflexivity. }
    unfold after, trace. cbn [fst snd self nvs].
    destruct (feq (default (F32.of_int 0) (nvs w !! "voltage7")) (F32.of_int 0)).
    + rewrite (Hy _ (or_intror eq_refl)), H. cbn [_acidVoltage with_acidVoltage].
      split; [reflexivity |]. split; [apply Hkept, H |]. split.
      * apply lookup_insert_ne. discriminate.
      * intros value Hin. cbn [In app] in Hin. intuition discriminate.
    + rewrite H. cbn [_acidVoltage with_acidVoltage].
      split; [reflexivity |]. split; [apply Hkept, H |]. split; [reflexivity |].
      intros value Hin. cbn [In app] in Hin. intuition discriminate.
Qed.

(** the manual path reads its constants from the object, whatever it is
    called with *)
Lemma manualCalibration_eq (voltage7 voltage4 : float) (w : World) :
  manualCalibration voltage7 voltage4 w =
    (tt,
     with_store (<["voltage4" := _acidVoltage (self w)]>
                   (<["voltage7" := _neutralVoltage (self w)]> (nvs w))) w,
     [preferences_begin "pHVals" false;
      preferences_putFloat "voltage7" (_neutralVoltage (self w));
      Serial_println "PH 7 Calibration value saved";
      preferences_putFloat "voltage4" (_acidVoltage (self w));
      Serial_println "PH 4 Calibration value saved";
      preferences_end]).
Proof. destruct w as [d fin ent st]. reflexivity. Qed.

(** C3 (the code at the failing input): [manualCalibration] never reads
    its two arguments: it stores the constants the object holds. Called
    with 1500 and 2000 on a fresh object it stores the defaults 1348.68
    and 1844.17, and a store get returns those, not the arguments. *)
Theorem manualCalibration_stores_held_constants :
  (forall (voltage7 voltage4 : float) (w : World),
     let r := manualCalibration voltage7 voltage4 w in
     result (preferences_getFloat "voltage7" (F32.of_int 0) (after r))
       = _neutralVoltage (self w)
     /\ result (preferences_getFloat "voltage4" (F32.of_int 0) (after r))
       = _acidVoltage (self w))
  /\ (let r := manualCalibration (F32.of_int 1500) (F32.of_int 2000) (boot ∅) in
      let got7 := result (preferences_getFloat "voltage7" (F32.of_int 0) (after r)) in
      let got4 := result (preferences_getFloat "voltage4" (F32.of_int 0) (after r)) in
      got7 = F32.of_double d1348_68 /\ feq got7 (F32.of_int 1500) = false
      /\ got4 = F32.of_double d1844_17 /\ feq got4 (F32.of_int 2000) = false).
Proof.
  split.
  - intros voltage7 voltage4 w. cbv zeta. rewrite manualCalibration_eq.
    unfold after, result, preferences_getFloat, with_store.
    cbn [fst snd nvs].
    rewrite lookup_insert_ne by discriminate.
    rewrite !lookup_insert_eq. split; reflexivity.
  - vm_compute. repeat split.
Qed.

(** ** The linear model *)

Lemma readPH_eq (voltage temperature : float) (w : World) :
  let slope := readPH_slope (_neutralVoltage (self w)) (_acidVoltage (self w)) in
  let intercept := readPH_intercept slope (_neutralVoltage (self w)) in
  let pH := readPH_value slope intercept voltage in
  readPH voltage temperature w
  = (pH,
     {| self := with_phValue pH (self w);
        phCalibrationFinish := phCalibrationFinish w;
        enterCalibrationFlag := enterCalibrationFlag w;
        nvs := nvs w |},
     []).
Proof.
  destruct w as [d fin ent st].
  unfold readPH_value, readPH_intercept, readPH_slope. eff_unfold.
  reflexivity.
Qed.

Lemma of_double_not_finite (x : double) :
  is_finite x = false -> is_finite (F32.of_double x) = false.
Proof. destruct x; simpl; congruence. Qed.

Lemma of_float_not_finite (x : float) :
  is_finite x = false -> is_finite (F64.of_float x) = false.
Proof. destruct x; simpl; congruence. Qed.

Lemma mul_not_finite_l (x y : double) :
  is_finite x = false -> is_finite (F64.mul x y) = false.
Proof.
  destruct x as [s|s| |s m e]; simpl; try congruence; intros _;
    destruct y; reflexivity.
Qed.

Lemma div_3_not_finite (x : double) :
  is_finite x = false -> is_finite (F64.div x d3_0) = false.
Proof. destruct x as [s|s| |s m e]; simpl; try congruence; reflexivity. Qed.

Lemma sub_not_finite_r (x y : double) :
  is_finite y = false -> is_finite (F64.sub x y) = false.
Proof.
  destruct y as [s|s| |s m e]; simpl; try congruence; intros _.
  - destruct x as [sx|sx| |sx mx ex]; try reflexivity.
    destruct sx, s; reflexivity.
  - destruct x; reflexivity.
Qed.

Lemma add_not_finite (x y : double) :
  is_finite x = false -> is_finite y = false ->
  is_finite (F64.add x y) = false.
Proof.
  destruct x as [s|s| |s m e]; simpl; try congruence; intros _;
    destruct y as [sy|sy| |sy my ey]; simpl; try congruence;
    try reflexivity.
  destruct s, sy; reflexivity.
Qed.

(** a double minus itself is a zero, or a NaN when it is not finite *)
Lemma sub_self (x : double) :
  (exists s, F64.sub x x = S754_zero s) \/ F64.sub x x = S754_nan.
Proof.
  destruct x as [s|s| |s m e].
  - left. destruct s; eexists; reflexivity.
  - right. destruct s; reflexivity.
  - right. reflexivity.
  - left. exists false. unfold F64.sub, SFsub.
    rewrite Z.sub_diag. reflexivity.
Qed.

Lemma three_over_zero (y : double) :
  (exists s, y = S754_zero s) \/ y = S754_nan ->
  is_finite (F64.div (F64.sub d7_0 d4_0) y) = false.
Proof. intros [[s ->] | ->]; reflexivity. Qed.

Lemma slope_degenerate (x : float) : is_finite (readPH_slope x x) = false.
Proof.
  unfold readPH_slope. apply of_double_not_finite, three_over_zero, sub_self.
Qed.

Lemma intercept_not_finite (slope neutralVoltage : float) :
  is_finite slope = false ->
  is_finite (readPH_intercept slope neutralVoltage) = false.
Proof.
  intros H. unfold readPH_intercept.
  apply of_double_not_finite, sub_not_finite_r, div_3_not_finite,
    mul_not_finite_l, of_float_not_finite, H.
Qed.

Lemma value_not_finite (slope intercept voltage : float) :
  is_finite slope = false -> is_finite intercept = false ->
  is_finite (readPH_value slope intercept voltage) = false.
Proof.
  intros Hs Hi. unfold readPH_value.
  apply of_double_not_finite, add_not_finite.
  - apply div_3_not_finite, mul_not_finite_l, of_float_not_finite, Hs.
  - apply of_float_not_finite, Hi.
Qed.

(** C4 (as amended): the code has no guard for degenerate constants. When
    [_neutralVoltage] and [_acidVoltage] are equal the divisor is zero (or
    NaN), the slope is not finite, and for every voltage and temperature
    [readPH] returns a value that is not finite (an infinity or a NaN),
    stores it in [_phValue] in place of the last pH, and reports nothing. *)
Theorem readPH_degenerate_not_finite
    (voltage temperature : float) (w : World) :
  _neutralVoltage (self w) = _acidVoltage (self w) ->
  let r := readPH voltage temperature w in
  is_finite (readPH_slope (_neutralVoltage (self w)) (_acidVoltage (self w))) = false
  /\ is_finite (result r) = false
  /\ _phValue (self (after r)) = result r
  /\ trace r = [].
Proof.
  intros Heq. cbv zeta. rewrite readPH_eq. cbv zeta.
  unfold result, after, trace. cbn [fst snd self _phValue with_phValue].
  rewrite <- Heq.
  pose proof (slope_degenerate (_neutralVoltage (self w))) as Hs.
  repeat split; try exact Hs.
  apply value_not_finite; [exact Hs |].
  apply intercept_not_finite, Hs.
Qed.


(** ** Sessions *)

Lemma after_bind {A B} (c : Eff A) (f : A -> Eff B) (w : World) :
  after ((c ≫= f) w) = after (f (result (c w)) (after (c w))).
Proof.
  unfold mbind, Eff_bind, eff_bind, after, result.
  destruct (c w) as [[a w1] o1]. cbn [fst snd].
  destruct (f a w1) as [[b w2] o2]. reflexivity.
Qed.


Lemma phCalibration_session_ok (mode : Z) (w : World) :
  session_ok w -> session_ok (after (phCalibration mode w)).
Proof.
  intros Hok.
  destruct (Z.eq_dec mode 0) as [->|H0];
    [| destruct (Z.eq_dec mode 1) as [->|H1];
       [| destruct (Z.eq_dec mode 2) as [->|H2];
          [| destruct (Z.eq_dec mode 3) as [->|H3]]]].
  5: { rewrite phCalibration_other_mode by assumption. exact Hok. }
  all: destruct w as [d fin ent st]; unfold session_ok in *;
    cbn [phCalibrationFinish enterCalibrationFlag] in Hok;
    destruct ent; eff_unfold;
    repeat match goal with
      | |- context [if ?b then _ else _] => destruct b eqn:?
      end;
    cbn; auto; congruence.
Qed.

Lemma call_session_ok (c : Call) (w : World) :
  session_ok w -> session_ok (after (call c w)).
Proof.
  intros Hok. destruct c; cbn [call].
  - destruct w; exact Hok.
  - rewrite begin_eq. exact Hok.
  - rewrite after_bind.
    pose proof (getPH_frame temp_in analogRead w) as HF. cbv zeta in HF.
    destruct HF as (Hf & He & _). unfold session_ok, skip in *.
    cbn. rewrite Hf, He. exact Hok.
  - rewrite after_bind, readPH_eq. exact Hok.
  - apply phCalibration_session_ok, Hok.
  - apply phCalibration_session_ok, Hok.
  - rewrite manualCalibration_eq. exact Hok.
Qed.

Lemma run_session_ok (calls : list Call) (w : World) :
  session_ok w -> session_ok (after (run calls w)).
Proof.
  revert w. induction calls as [|c calls IH]; intros w Hok.
  - exact Hok.
  - cbn [run]. rewrite after_bind. apply IH, call_session_ok, Hok.
Qed.



End Properties.

(** ** The statements at concrete inputs *)

Ltac splits := repeat match goal with |- _ /\ _ => split end.

Ltac compute_trace :=
  vm_compute;
  first [ reflexivity | tauto | intuition discriminate
        | intros (? & ? & ?); intuition discriminate ].

(** C1, counterexample: a neutral sample is accepted at 1300.34 mV and the
    probe is then taken out (2900.39 mV, outside both commit bands). The
    exit reports CalibrationSucceeded, not CalibrationFailed, and writes
    nothing. *)
Lemma exit_after_probe_moved_reports_success :
  let w := sampled_then_moved in
  let r := phCalibration (hdr := typical_header) (mode_of ExitAndSave) w in
  enterCalibrationFlag w = true
  /\ phCalibrationFinish w = true
  /\ _voltage (self w) = mV_of_reading 3600
  /\ neutral_commit_band (hdr := typical_header) (_voltage (self w)) = false
  /\ acid_commit_band (hdr := typical_header) (_voltage (self w)) = false
  /\ CalibrationSucceeded (trace r)
  /\ ~ CalibrationFailed (trace r)
  /\ ~ store_written (trace r)
  /\ nvs (after r) = nvs w.
Proof. cbv zeta. splits; compute_trace. Qed.

Lemma exit_and_save_outcome_witness :
  (let w := neutral_sampled in
   let r := phCalibration (hdr := typical_header) (mode_of ExitAndSave) w in
   nvs (after r) = <["voltage7" := _neutralVoltage (self w)]> (nvs w)
   /\ CalibrationSucceeded (trace r))
  /\ (let w := acid_sampled in
      let r := phCalibration (hdr := typical_header) (mode_of ExitAndSave) w in
      nvs (after r) = <["voltage4" := _acidVoltage (self w)]> (nvs w)
      /\ CalibrationSucceeded (trace r))
  /\ (let w := sampled_then_moved in
      let r := phCalibration (hdr := typical_header) (mode_of ExitAndSave) w in
      CalibrationSucceeded (trace r) /\ nvs (after r) = nvs w)
  /\ (let w := session_entered in
      let r := phCalibration (hdr := typical_header) (mode_of ExitAndSave) w in
      CalibrationFailed (trace r) /\ nvs (after r) = nvs w).
Proof.
  cbv zeta. split; [| split; [| split]].
  - destruct (exit_and_save_outcome (hdr := typical_header) neutral_sampled
                ltac:(vm_compute; reflexivity)) as (Hn & _).
    destruct (Hn ltac:(vm_compute; reflexivity) ltac:(vm_compute; reflexivity))
      as (_ & Hst & Hok & _).
    split; [exact Hst | exact Hok].
  - destruct (exit_and_save_outcome (hdr := typical_header) acid_sampled
                ltac:(vm_compute; reflexivity)) as (_ & Ha & _).
    destruct (Ha ltac:(vm_compute; reflexivity) ltac:(vm_compute; reflexivity)
                 ltac:(vm_compute; reflexivity))
      as (_ & Hst & Hok & _).
    split; [exact Hst | exact Hok].
  - destruct (exit_and_save_outcome (hdr := typical_header) sampled_then_moved
                ltac:(vm_compute; reflexivity)) as (_ & _ & Ho & _).
    destruct (Ho ltac:(vm_compute; reflexivity) ltac:(vm_compute; reflexivity)
                 ltac:(vm_compute; reflexivity))
      as (Hok & _ & Hst & _).
    split; [exact Hok | exact Hst].
  - destruct (exit_and_save_outcome (hdr := typical_header) session_entered
                ltac:(vm_compute; reflexivity)) as (_ & _ & _ & Hf).
    destruct (Hf ltac:(vm_compute; reflexivity)) as (Hfail & _ & Hst & _).
    split; [exact Hfail | exact Hst].
Defined.



(** C4, counterexample: both constants 1400 mV. [readPH] at 1400 mV returns
    a NaN and stores it over the last pH (7.0); at 1600 mV it returns
    +infinity. Nothing is reported in either case. *)
Lemma equal_constants_give_nan :
  let w := equal_constants in
  let t := F32.of_int 25 in
  _neutralVoltage (self w) = F32.of_int 1400
  /\ _acidVoltage (self w) = F32.of_int 1400
  /\ _phValue (self w) = F32.of_double d7_0
  /\ readPH_slope (_neutralVoltage (self w)) (_acidVoltage (self w))
     = S754_infinity false
  /\ result (readPH (F32.of_int 1400) t w) = S754_nan
  /\ _phValue (self (after (readPH (F32.of_int 1400) t w))) = S754_nan
  /\ trace (readPH (F32.of_int 1400) t w) = []
  /\ result (readPH (F32.of_int 1600) t w) = S754_infinity false
  /\ trace (readPH (F32.of_int 1600) t w) = [].
Proof. cbv zeta. splits; vm_compute; reflexivity. Qed.

Lemma readPH_degenerate_not_finite_witness :
  is_finite (result (readPH (F32.of_int 1400) (F32.of_int 25) equal_constants))
  = false.
Proof.
  destruct (readPH_degenerate_not_finite (F32.of_int 1400) (F32.of_int 25)
              equal_constants ltac:(vm_compute; reflexivity))
    as (_ & Hr & _).
  exact Hr.
Defined.

(** C5, counterexample: on a freshly started driver, with no session
    active, TakeReading and ExitAndSave print nothing at all: no
    CommandError is reported. *)
Lemma idle_take_reading_reports_nothing :
  let w := boot ∅ in
  Idle w
  /\ trace (phCalibration (hdr := typical_header) (mode_of TakeReading) w) = []
  /\ ~ CommandError (trace (phCalibration (hdr := typical_header) (mode_of TakeReading) w))
  /\ trace (phCalibration (hdr := typical_header) (mode_of ExitAndSave) w) = []
  /\ ~ CommandError (trace (phCalibration (hdr := typical_header) (mode_of ExitAndSave) w)).
Proof. cbv zeta. unfold Idle. splits; compute_trace. Qed.

Lemma idle_intents_are_silent_witness :
  phCalibration (hdr := typical_header) (mode_of ExitAndSave) (boot ∅)
  = (tt, boot ∅, []).
Proof.
  destruct (idle_intents_are_silent (hdr := typical_header) (boot ∅)
              (mode_of ExitAndSave)) as (Hnoop & _).
  apply Hnoop; [reflexivity | discriminate].
Defined.

Lemma take_reading_classifies_witness :
  (let w := after (getPH (F32.of_int 25) 1614 session_entered) in
   let r := phCalibration (hdr := typical_header) (mode_of TakeReading) w in
   _neutralVoltage (self (after r)) = _voltage (self w)
   /\ phCalibrationFinish (after r) = true)
  /\ (let w := after (getPH (F32.of_int 25) 2234 session_entered) in
      let r := phCalibration (hdr := typical_header) (mode_of TakeReading) w in
      _acidVoltage (self (after r)) = _voltage (self w)
      /\ phCalibrationFinish (after r) = true)
  /\ (let w := sampled_then_moved in
      let r := phCalibration (hdr := typical_header) (mode_of TakeReading) w in
      OutOfRangeSample (trace r)
      /\ phCalibrationFinish (after r) = false
      /\ _neutralVoltage (self (after r)) = _neutralVoltage (self w)
      /\ _acidVoltage (self (after r)) = _acidVoltage (self w))
  /\ (let w := after (getPH (F32.of_int 25) 1614 session_entered) in
      let r := phCalibration (hdr := typical_header) (mode_of TakeReading) w in
      let w2 := after (getPH (F32.of_int 25) 2234 (after r)) in
      let r2 := phCalibration (hdr := typical_header) (mode_of TakeReading) w2 in
      _acidVoltage (self (after r2)) = _voltage (self w2)
      /\ phCalibrationFinish (after r2) = true).
Proof.
  cbv zeta. split; [| split; [| split]].
  - destruct (take_reading_classifies (hdr := typical_header)
                (after (getPH (F32.of_int 25) 1614 session_entered))
                ltac:(vm_compute; reflexivity)) as (Hn & _).
    destruct (Hn ltac:(vm_compute; reflexivity)) as (Hv & Hf & _).
    split; [exact Hv | exact Hf].
  - destruct (take_reading_classifies (hdr := typical_header)
                (after (getPH (F32.of_int 25) 2234 session_entered))
                ltac:(vm_compute; reflexivity)) as (_ & Ha & _).
    destruct (Ha ltac:(vm_compute; reflexivity) ltac:(vm_compute; reflexivity))
      as (Hv & Hf & _).
    split; [exact Hv | exact Hf].
  - destruct (take_reading_classifies (hdr := typical_header) sampled_then_moved
                ltac:(vm_compute; reflexivity)) as (_ & _ & Hout & _).
    apply Hout; vm_compute; reflexivity.
  - destruct (take_reading_classifies (hdr := typical_header)
                (after (getPH (F32.of_int 25) 1614 session_entered))
                ltac:(vm_compute; reflexivity)) as (_ & _ & _ & _ & Hlater).
    destruct (Hlater (F32.of_int 25) 2234) as (_ & Ha & _).
    apply Ha; vm_compute; reflexivity.
Defined.

Lemma take_reading_frame_witness :
  (let w := after (getPH (F32.of_int 25) 1614 session_entered) in
   let r := phCalibration (hdr := typical_header) (mode_of TakeReading) w in
   _acidVoltage (self (after r)) = _acidVoltage (self w))
  /\ (let w := after (getPH (F32.of_int 25) 2234 session_entered) in
      let r := phCalibration (hdr := typical_header) (mode_of TakeReading) w in
      _neutralVoltage (self (after r)) = _neutralVoltage (self w))
  /\ (let w := sampled_then_moved in
      let r := phCalibration (hdr := typical_header) (mode_of TakeReading) w in
      _neutralVoltage (self (after r)) = _neutralVoltage (self w)
      /\ _acidVoltage (self (after r)) = _acidVoltage (self w)).
Proof.
  cbv zeta. split; [| split].
  - destruct (take_reading_frame (hdr := typical_header)
                (after (getPH (F32.of_int 25) 1614 session_entered)))
      as (_ & Hn & _).
    apply Hn; vm_compute; reflexivity.
  - destruct (take_reading_frame (hdr := typical_header)
                (after (getPH (F32.of_int 25) 2234 session_entered)))
      as (_ & _ & Ha & _).
    apply Ha; vm_compute; reflexivity.
  - destruct (take_reading_frame (hdr := typical_header) sampled_then_moved)
      as (_ & _ & _ & Ho & _).
    apply Ho; vm_compute; reflexivity.
Defined.

Ltac not_contained :=
  let Hc := fresh "Hc" in
  let x := fresh "x" in
  intros Hc; apply strstr_contains in Hc; destruct Hc as [x Hc];
  vm_compute in Hc; discriminate.

Lemma cmdParse_total_in_order_witness :
  cmdParse "ENTERPH EXITPH CALPH" = mode_of EnterCalibration
  /\ cmdParse "CALPH,EXITPH" = mode_of ExitAndSave
  /\ cmdParse "MANCALPH" = mode_of TakeReading
  /\ cmdParse "enterph" = mode_of IntentNone.
Proof.
  split; [| split; [| split]].
  - destruct (cmdParse_total_in_order "ENTERPH EXITPH CALPH") as (_ & He & _).
    apply He. exists ""%string, " EXITPH CALPH"%string. reflexivity.
  - destruct (cmdParse_total_in_order "CALPH,EXITPH") as (_ & _ & Hx & _).
    apply Hx; [not_contained |].
    exists "CALPH,"%string, ""%string. reflexivity.
  - destruct (cmdParse_total_in_order "MANCALPH") as (_ & _ & _ & Hc & _).
    apply Hc; [not_contained | not_contained |].
    exists "MAN"%string, ""%string. reflexivity.
  - destruct (cmdParse_total_in_order "enterph") as (_ & _ & _ & _ & Hn).
    apply Hn; not_contained.
Defined.



Lemma begin_zero_is_absence_witness :
  (let stored_zero := boot (<["voltage7" := S754_zero false]> ∅) in
   _neutralVoltage (self (after (begin stored_zero))) = F32.of_double d1348_68
   /\ nvs (after (begin stored_zero)) !! "voltage7" = Some (F32.of_double d1348_68))
  /\ (let stored_zero := boot (<["voltage4" := S754_zero true]> ∅) in
      _acidVoltage (self (after (begin stored_zero))) = F32.of_double d1844_17
      /\ nvs (after (begin stored_zero)) !! "voltage4" = Some (F32.of_double d1844_17))
  /\ begin (with_store (<["voltage7" := S754_zero false]> (nvs (boot ∅))) (boot ∅))
     = begin (with_store (delete "voltage7" (nvs (boot ∅))) (boot ∅))
  /\ begin (with_store (<["voltage4" := S754_zero false]> (nvs (boot ∅))) (boot ∅))
     = begin (with_store (delete "voltage4" (nvs (boot ∅))) (boot ∅))
  /\ (let stored := boot (<["voltage7" := F32.of_int 1300]> ∅) in
      _neutralVoltage (self (after (begin stored))) = F32.of_int 1300
      /\ nvs (after (begin stored)) !! "voltage7" = Some (F32.of_int 1300)
      /\ ~ In (preferences_putFloat "voltage7" (F32.of_double d1348_68))
             (trace (begin stored)))
  /\ (let stored := boot (<["voltage4" := S754_nan]> ∅) in
      _acidVoltage (self (after (begin stored))) = S754_nan
      /\ nvs (after (begin stored)) !! "voltage4" = Some S754_nan
      /\ ~ In (preferences_putFloat "voltage4" (F32.of_double d1844_17))
             (trace (begin stored))).
Proof.
  cbv zeta. split; [| split; [| split; [| split; [| split]]]].
  - destruct (begin_zero_is_absence (boot (<["voltage7" := S754_zero false]> ∅)))
      as (H7 & _).
    destruct (H7 ltac:(vm_compute; reflexivity)) as (Hmem & Hst & _).
    split; [exact Hmem | exact Hst].
  - destruct (begin_zero_is_absence (boot (<["voltage4" := S754_zero true]> ∅)))
      as (_ & H4 & _).
    destruct (H4 ltac:(vm_compute; reflexivity)) as (Hmem & Hst & _).
    split; [exact Hmem | exact Hst].
  - destruct (begin_zero_is_absence (boot ∅)) as (_ & _ & Hsame & _).
    destruct (Hsame (S754_zero false) ltac:(vm_compute; reflexivity)) as (Heq & _).
    exact Heq.
  - destruct (begin_zero_is_absence (boot ∅)) as (_ & _ & _ & Hsame & _).
    destruct (Hsame (S754_zero false) ltac:(vm_compute; reflexivity)) as (Heq & _).
    exact Heq.
  - destruct (begin_zero_is_absence (boot (<["voltage7" := F32.of_int 1300]> ∅)))
      as (_ & _ & _ & _ & H7 & _).
    destruct (H7 ltac:(vm_compute; reflexivity)) as (Hmem & _ & Hst & Hput).
    split; [exact Hmem |]. split; [exact Hst |]. apply Hput.
  - destruct (begin_zero_is_absence (boot (<["voltage4" := S754_nan]> ∅)))
      as (_ & _ & _ & _ & _ & H4).
    destruct (H4 ltac:(vm_compute; reflexivity)) as (Hmem & _ & Hst & Hput).
    split; [exact Hmem |]. split; [exact Hst |]. apply Hput.
Defined.

(** ** Further properties of the driver *)

Section MoreProperties.

Context {hdr : Header}.

Ltac eff_run :=
  cbv [phCalibration calibration call manualCalibration begin readPH getPH
       init get_neutralVoltage
       mbind mret Eff_bind Eff_ret eff_bind eff_ret emit skip this
       update_this get_phCalibrationFinish get_enterCalibrationFlag
       set_phCalibrationFinish set_enterCalibrationFlag
       preferences_getFloat preferences_put
       with_phValue with_acidVoltage with_neutralVoltage with_voltage
       with_temperature
       result after trace fst snd app
       self phCalibrationFinish enterCalibrationFlag nvs
       PH_PIN ESPADC ESPVOLTAGE _phValue _acidVoltage _neutralVoltage
       _voltage _temperature
       neutral_band acid_band neutral_commit_band acid_commit_band
       CommandError OutOfRangeSample CalibrationSucceeded CalibrationFailed
       store_written Idle session_ok].

Ltac case_ifs :=
  repeat match goal with
    | |- context [if ?b then _ else _] => destruct b eqn:?
    end.

Lemma trace_bind {A B} (c : Eff A) (f : A -> Eff B) (w : World) :
  trace ((c ≫= f) w)
  = trace (c w) ++ trace (f (result (c w)) (after (c w))).
Proof.
  unfold mbind, Eff_bind, eff_bind, after, result, trace.
  destruct (c w) as [[a w1] o1]. cbn [fst snd].
  destruct (f a w1) as [[b w2] o2]. reflexivity.
Qed.

Lemma trace_run_cons (c : Call) (calls : list Call) (w : World) :
  trace (run (c :: calls) w)
  = trace (call c w) ++ trace (run calls (after (call c w))).
Proof. exact (trace_bind (call c) (fun _ => run calls) w). Qed.

Lemma after_run_cons (c : Call) (calls : list Call) (w : World) :
  after (run (c :: calls) w) = after (run calls (after (call c w))).
Proof. exact (after_bind (call c) (fun _ => run calls) w). Qed.

(** what a reading call leaves alone *)
Lemma reading_call_frame (c : Call) (w : World) :
  is_reading c ->
  phCalibrationFinish (after (call c w)) = phCalibrationFinish w
  /\ enterCalibrationFlag (after (call c w)) = enterCalibrationFlag w
  /\ nvs (after (call c w)) = nvs w
  /\ _neutralVoltage (self (after (call c w))) = _neutralVoltage (self w)
  /\ _acidVoltage (self (after (call c w))) = _acidVoltage (self w)
  /\ (forall key value, ~ In (preferences_putFloat key value) (trace (call c w))).
Proof.
  destruct c; cbn [is_reading]; try tauto; intros _;
    destruct w as [d fin ent st]; eff_run; splits; try reflexivity;
    intros key value Hin; cbn [In] in Hin; intuition discriminate.
Qed.

Lemma readings_frame (calls : list Call) (w : World) :
  Forall is_reading calls ->
  let r := run calls w in
  phCalibrationFinish (after r) = phCalibrationFinish w
  /\ enterCalibrationFlag (after r) = enterCalibrationFlag w
  /\ nvs (after r) = nvs w
  /\ _neutralVoltage (self (after r)) = _neutralVoltage (self w)
  /\ _acidVoltage (self (after r)) = _acidVoltage (self w)
  /\ ~ store_written (trace r).
Proof.
  intros Hall. cbv zeta. revert w.
  induction Hall as [|c calls Hc Hall IH]; intros w.
  - splits; try reflexivity. intros (key & value & []).
  - rewrite after_run_cons, trace_run_cons.
    destruct (reading_call_frame c w Hc) as (Hf & He & Hs & Hn & Ha & Hp).
    destruct (IH (after (call c w))) as (Hf' & He' & Hs' & Hn' & Ha' & Hp').
    splits; try congruence.
    intros (key & value & Hin). apply in_app_or in Hin as [Hin | Hin].
    + exact (Hp key value Hin).
    + apply Hp'. exists key, value. exact Hin.
Qed.

(** X1: pH readings never disturb a calibration: any sequence of getPH and
    readPH calls leaves the two session flags, the two calibration
    constants and the store as they were, and sends nothing to the store. *)
Theorem readings_leave_calibration_alone (calls : list Call) (w : World) :
  Forall is_reading calls ->
  let r := run calls w in
  phCalibrationFinish (after r) = phCalibrationFinish w
  /\ enterCalibrationFlag (after r) = enterCalibrationFlag w
  /\ nvs (after r) = nvs w
  /\ _neutralVoltage (self (after r)) = _neutralVoltage (self w)
  /\ _acidVoltage (self (after r)) = _acidVoltage (self w)
  /\ ~ store_written (trace r).
Proof. apply readings_frame. Qed.

Ltac mode_cases mode :=
  destruct (Z.eq_dec mode 0) as [->|?];
    [| destruct (Z.eq_dec mode 1) as [->|?];
       [| destruct (Z.eq_dec mode 2) as [->|?];
          [| destruct (Z.eq_dec mode 3) as [->|?];
             [| rewrite phCalibration_other_mode by assumption]]]].

Lemma phCalibration_put_cases
    (mode : Z) (w : World) (key : string) (value : float) :
  In (preferences_putFloat key value) (trace (phCalibration mode w)) ->
  mode = mode_of ExitAndSave
  /\ enterCalibrationFlag w = true
  /\ phCalibrationFinish w = true
  /\ ((key = "voltage7"%string /\ value = _neutralVoltage (self w)
       /\ neutral_commit_band (_voltage (self w)) = true)
      \/ (key = "voltage4"%string /\ value = _acidVoltage (self w)
          /\ acid_commit_band (_voltage (self w)) = true)).
Proof.
  mode_cases mode; destruct w as [d fin ent st]; destruct ent, fin;
    eff_run; case_ifs; cbn [In]; intros Hin;
    repeat match goal with
      | H : _ \/ _ |- _ => destruct H
      | H : False |- _ => destruct H
      | H : _ = preferences_putFloat _ _ |- _ =>
          first [discriminate H | injection H as <- <-]
      end;
    splits; auto.
Qed.

(** X2: the state machine writes the store in one place only. If
    [phCalibration] sends a put, the intent was ExitAndSave, a session was
    active with a sample accepted, and the put is either "voltage7" with
    the in-memory neutral constant, the live voltage being in the neutral
    commit band, or "voltage4" with the in-memory acid constant, the live
    voltage being in the acid commit band. *)
Theorem phCalibration_puts_only_on_exit
    (mode : Z) (w : World) (key : string) (value : float) :
  In (preferences_putFloat key value) (trace (phCalibration mode w)) ->
  mode = mode_of ExitAndSave
  /\ enterCalibrationFlag w = true
  /\ phCalibrationFinish w = true
  /\ ((key = "voltage7"%string /\ value = _neutralVoltage (self w)
       /\ neutral_commit_band (_voltage (self w)) = true)
      \/ (key = "voltage4"%string /\ value = _acidVoltage (self w)
          /\ acid_commit_band (_voltage (self w)) = true)).
Proof. apply phCalibration_put_cases. Qed.

Lemma phCalibration_store (mode : Z) (w : World) :
  let r := phCalibration mode w in
  nvs (after r) = nvs w
  \/ nvs (after r) = <["voltage7" := _neutralVoltage (self w)]> (nvs w)
  \/ nvs (after r) = <["voltage4" := _acidVoltage (self w)]> (nvs w).
Proof.
  cbv zeta.
  mode_cases mode; destruct w as [d fin ent st]; destruct ent, fin;
    eff_run; case_ifs; auto.
Qed.

Lemma insert_other_key (key key' : string) (x : float) (m : gmap string float) :
  calibration_key key' -> ~ calibration_key key ->
  <[key' := x]> m !! key = m !! key.
Proof.
  intros Hk' Hk. apply lookup_insert_ne. intros ->. exact (Hk Hk').
Qed.

Lemma call_store_keys (c : Call) (w : World) :
  (forall key value,
     In (preferences_putFloat key value) (trace (call c w)) ->
     calibration_key key)
  /\ (forall key, ~ calibration_key key ->
        nvs (after (call c w)) !! key = nvs w !! key).
Proof.
  assert (H7 : calibration_key "voltage7") by (left; reflexivity).
  assert (H4 : calibration_key "voltage4") by (right; reflexivity).
  assert (Hph : forall mode,
    (forall key value,
       In (preferences_putFloat key value) (trace (phCalibration mode w)) ->
       calibration_key key)
    /\ (forall key, ~ calibration_key key ->
          nvs (after (phCalibration mode w)) !! key = nvs w !! key)).
  { intros mode. split.
    - intros key value Hin.
      destruct (phCalibration_put_cases mode w key value Hin)
        as (_ & _ & _ & [(-> & _) | (-> & _)]); assumption.
    - intros key Hkey.
      destruct (phCalibration_store mode w) as [-> | [-> | ->]];
        [reflexivity | |]; now apply insert_other_key. }
  destruct c; cbn [call]; try apply Hph.
  - destruct w; split; [intros key value [] | reflexivity].
  - rewrite begin_eq. cbv zeta. unfold trace, after. cbn [fst snd nvs]. split.
    + intros key value Hin. cbn [app In] in Hin.
      destruct Hin as [Hin | Hin]; [discriminate |].
      apply in_app_or in Hin as [Hin | Hin].
      { destruct (feq _ _); cbn [In] in Hin; [| tauto].
        destruct Hin as [Hin | []]. injection Hin as <- _. exact H7. }
      apply in_app_or in Hin as [Hin | Hin].
      { destruct (feq (default _ (_ !! "voltage4")) _); cbn [In] in Hin; [| tauto].
        destruct Hin as [Hin | []]. injection Hin as <- _. exact H4. }
      cbn [In] in Hin. destruct Hin as [Hin | []]. discriminate.
    + intros key Hkey.
      destruct (feq (default _ (nvs w !! "voltage7")) _);
        destruct (feq (default _ (_ !! "voltage4")) _);
        rewrite ?insert_other_key by assumption; reflexivity.
  - assert (Hr : is_reading (Call_getPH temp_in analogRead)) by exact I.
    destruct (reading_call_frame _ w Hr) as (_ & _ & Hs & _ & _ & Hp).
    cbn [call] in Hs, Hp. split.
    + intros key value Hin. destruct (Hp key value Hin).
    + intros key _. now rewrite Hs.
  - assert (Hr : is_reading (Call_readPH voltage temperature)) by exact I.
    destruct (reading_call_frame _ w Hr) as (_ & _ & Hs & _ & _ & Hp).
    cbn [call] in Hs, Hp. split.
    + intros key value Hin. destruct (Hp key value Hin).
    + intros key _. now rewrite Hs.
  - rewrite manualCalibration_eq. unfold trace, after, with_store.
    cbn [fst snd nvs]. split.
    + intros key value Hin. cbn [In] in Hin.
      repeat match goal with
        | H : _ \/ _ |- _ => destruct H
        | H : False |- _ => destruct H
        | H : _ = preferences_putFloat _ _ |- _ =>
            first [discriminate H | injection H as <- _]
        end; assumption.
    + intros key Hkey. now rewrite !insert_other_key.
Qed.

(** X3: the driver owns two store keys and no other. Whatever sequence of
    calls is made, every put it sends is on "voltage7" or "voltage4", and
    the value stored under any other key is never changed. *)
Theorem only_calibration_keys_touched (calls : list Call) (w : World) :
  (forall key value,
     In (preferences_putFloat key value) (trace (run calls w)) ->
     calibration_key key)
  /\ (forall key, ~ calibration_key key ->
        nvs (after (run calls w)) !! key = nvs w !! key).
Proof.
  revert w. induction calls as [|c calls IH]; intros w.
  - split; [intros key value [] | reflexivity].
  - rewrite after_run_cons, trace_run_cons.
    destruct (call_store_keys c w) as (Hp & Hs).
    destruct (IH (after (call c w))) as (Hp' & Hs').
    split.
    + intros key value Hin. apply in_app_or in Hin as [Hin | Hin]; eauto.
    + intros key Hkey. rewrite Hs' by assumption. now apply Hs.
Qed.

(** X4: the accepted flag is never set outside a session. From start-up,
    after any sequence of calls, [phCalibrationFinish] set implies
    [enterCalibrationFlag] set; so a machine that is not in a session is
    Idle, with both flags clear. *)
Theorem finished_only_inside_session
    (calls : list Call) (store : gmap string float) :
  let w := after (run calls (boot store)) in
  session_ok w /\ (enterCalibrationFlag w = false <-> Idle w).
Proof.
  cbv zeta.
  assert (Hok : session_ok (after (run calls (boot store)))).
  { apply run_session_ok. intros H. discriminate H. }
  split; [exact Hok |]. unfold Idle. split; [| tauto].
  intros He. split; [exact He |].
  unfold session_ok in Hok.
  destruct (phCalibrationFinish _); [| reflexivity].
  rewrite Hok in He by reflexivity. discriminate.
Qed.

Lemma enter_eq (w : World) :
  phCalibration 1 w =
    (tt,
     {| self := self w; phCalibrationFinish := false;
        enterCalibrationFlag := true; nvs := nvs w |},
     [Serial_println ""; Serial_println ">>>Enter PH Calibration Mode<<<";
      Serial_println ">>>Please put the probe into the 4.0 or 7.0 standard buffer solution<<<";
      Serial_println ""]).
Proof. destruct w as [d fin ent st]. reflexivity. Qed.

Lemma exit_without_sample_eq (w : World) :
  enterCalibrationFlag w = true -> phCalibrationFinish w = false ->
  phCalibration 3 w =
    (tt,
     {| self := self w; phCalibrationFinish := false;
        enterCalibrationFlag := false; nvs := nvs w |},
     [Serial_println ""; preferences_begin "pHVals" false;
      Serial_print ">>>Calibration Failed"; preferences_end;
      Serial_println ",Exit PH Calibration Mode<<<"; Serial_println ""]).
Proof.
  destruct w as [d fin ent st]. intros He Hf.
  cbn [enterCalibrationFlag phCalibrationFinish] in He, Hf. subst ent fin.
  reflexivity.
Qed.

(** X5: entering a session cancels whatever was pending. From any state --
    idle, or in a session with a sample already accepted -- an
    EnterCalibration followed only by pH readings and then ExitAndSave
    reports CalibrationFailed, writes nothing, leaves the store and both
    in-memory constants as they were before the enter, and ends Idle. *)
Theorem enter_then_exit_fails (readings : list Call) (w : World) :
  Forall is_reading readings ->
  let w1 := after (run (Call_phCalibration (mode_of EnterCalibration) :: readings) w) in
  let r := phCalibration (mode_of ExitAndSave) w1 in
  CalibrationFailed (trace r)
  /\ ~ CalibrationSucceeded (trace r)
  /\ ~ store_written (trace r)
  /\ nvs (after r) = nvs w
  /\ Idle (after r)
  /\ _neutralVoltage (self (after r)) = _neutralVoltage (self w)
  /\ _acidVoltage (self (after r)) = _acidVoltage (self w).
Proof.
  intros Hall. cbv zeta. rewrite after_run_cons. cbn [call mode_of].
  pose proof (enter_eq w) as Henter.
  set (we := {| self := self w; phCalibrationFinish := false;
                enterCalibrationFlag := true; nvs := nvs w |}) in Henter.
  replace (after (phCalibration 1 w)) with we by (now rewrite Henter).
  pose proof (readings_frame readings we Hall) as HF.
  cbv zeta in HF. destruct HF as (Hf & He & Hs & Hn & Ha & _).
  set (w1 := after (run readings we)) in *.
  pose proof (exit_without_sample_eq w1 He Hf) as Hexit.
  rewrite Hexit.
  unfold trace, after, Idle, CalibrationFailed, CalibrationSucceeded,
    store_written.
  cbn [fst snd self nvs enterCalibrationFlag phCalibrationFinish In].
  splits; try reflexivity; try assumption.
  - tauto.
  - intuition discriminate.
  - intros (key & value & Hin). intuition discriminate.
Qed.

Lemma not_finite_outside_band (v lo hi : float) :
  is_finite v = false -> fgt v lo && flt v hi = false.
Proof.
  destruct v as [s|s| |s m e]; try discriminate; intros _.
  - destruct s.
    + replace (fgt (S754_infinity true) lo) with false; [reflexivity |].
      destruct lo as [[]|[]| |[] ? ?]; reflexivity.
    + replace (flt (S754_infinity false) hi) with false;
        [apply andb_false_r |].
      destruct hi as [[]|[]| |[] ? ?]; reflexivity.
  - replace (fgt S754_nan lo) with false; [reflexivity |].
    destruct lo as [[]|[]| |[] ? ?]; reflexivity.
Qed.

(** X6: a voltage that is not finite (a NaN or an infinity) lies in no
    band, whatever the band limits are: during a session TakeReading
    rejects it as OutOfRangeSample and leaves both constants, and an
    ExitAndSave at such a voltage writes nothing to the store. *)
Theorem non_finite_voltage_never_sampled (w : World) :
  is_finite (_voltage (self w)) = false ->
  let v := _voltage (self w) in
  let t := phCalibration (mode_of TakeReading) w in
  let e := phCalibration (mode_of ExitAndSave) w in
  neutral_band v = false /\ acid_band v = false
  /\ neutral_commit_band v = false /\ acid_commit_band v = false
  /\ (enterCalibrationFlag w = true ->
      OutOfRangeSample (trace t) /\ phCalibrationFinish (after t) = false)
  /\ _neutralVoltage (self (after t)) = _neutralVoltage (self w)
  /\ _acidVoltage (self (after t)) = _acidVoltage (self w)
  /\ ~ store_written (trace e)
  /\ nvs (after e) = nvs w.
Proof.
  intros Hnf. cbv zeta.
  pose proof (not_finite_outside_band _ PH_8_VOLTAGE PH_6_VOLTAGE Hnf) as Hn.
  pose proof (not_finite_outside_band _ PH_5_VOLTAGE PH_3_VOLTAGE Hnf) as Ha.
  pose proof (not_finite_outside_band _ PH_8_VOLTAGE PH_5_VOLTAGE Hnf) as Hc.
  destruct w as [d fin ent st]. cbn [self] in *.
  unfold neutral_band, acid_band, neutral_commit_band, acid_commit_band.
  split; [exact Hn |]. split; [exact Ha |]. split; [exact Hc |].
  split; [exact Ha |].
  unfold mode_of. cbv [_voltage] in Hn, Ha, Hc.
  destruct ent, fin; eff_run; rewrite ?Hn, ?Ha, ?Hc;
    splits; intros; try reflexivity; try discriminate;
    cbn [In] in *; try tauto;
    intros (key & value & Hin); intuition discriminate.
Qed.

(** ** Start-up and persistence *)

Lemma feq_default_false (m : gmap string float) (key : string) :
  feq (default (F32.of_int 0) (m !! key)) (F32.of_int 0) = false ->
  m !! key = Some (default (F32.of_int 0) (m !! key)).
Proof. destruct (m !! key); [reflexivity | discriminate]. Qed.

Lemma default_some (z x : float) : default z (Some x) = x.
Proof. reflexivity. Qed.

(** after [begin] the store holds both constants, neither of them 0 *)
Lemma begin_post (w : World) :
  let w' := after (begin w) in
  nvs w' !! "voltage7" = Some (_neutralVoltage (self w'))
  /\ nvs w' !! "voltage4" = Some (_acidVoltage (self w'))
  /\ feq (_neutralVoltage (self w')) (F32.of_int 0) = false
  /\ feq (_acidVoltage (self w')) (F32.of_int 0) = false.
Proof.
  cbv zeta. rewrite begin_eq. cbv zeta. unfold after.
  cbn [fst snd self nvs _neutralVoltage _acidVoltage
       with_acidVoltage with_neutralVoltage].
  destruct (feq (default (F32.of_int 0) (nvs w !! "voltage7")) (F32.of_int 0)) eqn:H7.
  - destruct (feq (default (F32.of_int 0) (_ !! "voltage4")) (F32.of_int 0)) eqn:H4.
    + rewrite lookup_insert_ne by discriminate. rewrite !lookup_insert_eq.
      splits; reflexivity.
    + rewrite lookup_insert_eq. splits; try reflexivity; try exact H4.
      apply feq_default_false, H4.
  - destruct (feq (default (F32.of_int 0) (_ !! "voltage4")) (F32.of_int 0)) eqn:H4.
    + rewrite lookup_insert_ne by discriminate. rewrite lookup_insert_eq.
      splits; try reflexivity; try exact H7.
      apply feq_default_false, H7.
    + splits; try exact H7; try exact H4.
      * apply feq_default_false, H7.
      * apply feq_default_false, H4.
Qed.

(** a store that holds both constants, neither 0, is loaded as it is *)
Lemma begin_loads (w : World) (x y : float) :
  nvs w !! "voltage7" = Some x -> nvs w !! "voltage4" = Some y ->
  feq x (F32.of_int 0) = false -> feq y (F32.of_int 0) = false ->
  begin w =
    (tt,
     {| self := with_acidVoltage y (with_neutralVoltage x (self w));
        phCalibrationFinish := phCalibrationFinish w;
        enterCalibrationFlag := enterCalibrationFlag w;
        nvs := nvs w |},
     [preferences_begin "pHVals" false; preferences_end]).
Proof.
  intros H7 H4 Hx Hy. rewrite begin_eq. cbv zeta.
  rewrite H7. change (default (F32.of_int 0) (Some x)) with x.
  rewrite Hx. rewrite H4. change (default (F32.of_int 0) (Some y)) with y.
  rewrite Hy. reflexivity.
Qed.

(** X7: [begin] brings memory and store into agreement. After it, for
    every store content before, a store get of "voltage7" returns the
    in-memory neutral constant and a get of "voltage4" the in-memory acid
    constant, and neither constant compares equal to 0. *)
Theorem begin_synchronises (w : World) (defaultValue : float) :
  let w' := after (begin w) in
  result (preferences_getFloat "voltage7" defaultValue w')
    = _neutralVoltage (self w')
  /\ result (preferences_getFloat "voltage4" defaultValue w')
    = _acidVoltage (self w')
  /\ feq (_neutralVoltage (self w')) (F32.of_int 0) = false
  /\ feq (_acidVoltage (self w')) (F32.of_int 0) = false.
Proof.
  cbv zeta. pose proof (begin_post w) as H. cbv zeta in H.
  destruct H as (H7 & H4 & Hn & Ha).
  unfold preferences_getFloat, result. cbn [fst].
  rewrite H7, H4. splits; try reflexivity; assumption.
Qed.

Lemma with_constants_id (d : DFRobotESPpH) :
  with_acidVoltage (_acidVoltage d) (with_neutralVoltage (_neutralVoltage d) d) = d.
Proof. destruct d. reflexivity. Qed.

(** X8: [begin] is idempotent. A second [begin] right after the first
    changes nothing -- object, flags and store stay as the first left
    them -- and only opens and closes the store, without a put. *)
Theorem begin_twice (w : World) :
  begin (after (begin w))
  = (tt, after (begin w), [preferences_begin "pHVals" false; preferences_end]).
Proof.
  pose proof (begin_post w) as H. cbv zeta in H.
  destruct H as (H7 & H4 & Hn & Ha).
  rewrite (begin_loads _ _ _ H7 H4 Hn Ha).
  rewrite with_constants_id.
  destruct (after (begin w)). reflexivity.
Qed.

(** X9: a committed sample survives a restart. If ExitAndSave, in a session
    with a sample accepted, finds the live voltage in the neutral commit
    band (in the acid commit band) and the in-memory neutral (acid)
    constant is not 0, then a fresh driver started by [begin] over the
    store the exit left holds that constant again. *)
Theorem commit_survives_restart (w : World) :
  enterCalibrationFlag w = true -> phCalibrationFinish w = true ->
  let v := _voltage (self w) in
  let restarted := after (begin (boot (nvs (after (phCalibration (mode_of ExitAndSave) w))))) in
  (neutral_commit_band v = true ->
   feq (_neutralVoltage (self w)) (F32.of_int 0) = false ->
   _neutralVoltage (self restarted) = _neutralVoltage (self w))
  /\ (neutral_commit_band v = false -> acid_commit_band v = true ->
      feq (_acidVoltage (self w)) (F32.of_int 0) = false ->
      _acidVoltage (self restarted) = _acidVoltage (self w)).
Proof.
  intros He Hf. cbv zeta.
  destruct w as [d fin ent st]. cbn [enterCalibrationFlag phCalibrationFinish] in He, Hf.
  subst ent fin. unfold neutral_commit_band, acid_commit_band, mode_of.
  cbn [self].
  assert (Hexit7 : fgt (_voltage d) PH_8_VOLTAGE && flt (_voltage d) PH_5_VOLTAGE = true ->
    nvs (after (phCalibration 3
           {| self := d; phCalibrationFinish := true;
              enterCalibrationFlag := true; nvs := st |}))
    = <["voltage7" := _neutralVoltage d]> st).
  { intros Hb. cbv [_voltage] in Hb. eff_run. rewrite Hb. reflexivity. }
  assert (Hexit4 : fgt (_voltage d) PH_8_VOLTAGE && flt (_voltage d) PH_5_VOLTAGE = false ->
    fgt (_voltage d) PH_5_VOLTAGE && flt (_voltage d) PH_3_VOLTAGE = true ->
    nvs (after (phCalibration 3
           {| self := d; phCalibrationFinish := true;
              enterCalibrationFlag := true; nvs := st |}))
    = <["voltage4" := _acidVoltage d]> st).
  { intros Hb Hb'. cbv [_voltage] in Hb, Hb'. eff_run. rewrite Hb, Hb'.
    reflexivity. }
  split.
  - intros Hb Hnz. rewrite (Hexit7 Hb). rewrite begin_eq. cbv zeta.
    unfold after. cbn [fst snd self boot nvs _neutralVoltage with_acidVoltage
                       with_neutralVoltage].
    rewrite lookup_insert_eq. rewrite default_some, Hnz. reflexivity.
  - intros Hb Hb' Hnz. rewrite (Hexit4 Hb Hb'). rewrite begin_eq. cbv zeta.
    unfold after. cbn [fst snd self boot nvs _acidVoltage with_acidVoltage
                       with_neutralVoltage].
    destruct (feq (default (F32.of_int 0) (_ !! "voltage7")) (F32.of_int 0)).
    + rewrite lookup_insert_ne by discriminate. rewrite lookup_insert_eq.
      rewrite default_some, Hnz. reflexivity.
    + rewrite lookup_insert_eq. rewrite default_some, Hnz. reflexivity.
Qed.

(** X10: what [manualCalibration] saves is what the next start-up loads.
    The call leaves the object and the flags untouched; when neither held
    constant is 0, a fresh driver started by [begin] over the store it
    left holds both constants again, and that start-up writes nothing. *)
Theorem manual_save_survives_restart
    (voltage7 voltage4 : float) (w : World) :
  feq (_neutralVoltage (self w)) (F32.of_int 0) = false ->
  feq (_acidVoltage (self w)) (F32.of_int 0) = false ->
  let saved := after (manualCalibration voltage7 voltage4 w) in
  let r := begin (boot (nvs saved)) in
  self saved = self w
  /\ phCalibrationFinish saved = phCalibrationFinish w
  /\ enterCalibrationFlag saved = enterCalibrationFlag w
  /\ _neutralVoltage (self (after r)) = _neutralVoltage (self w)
  /\ _acidVoltage (self (after r)) = _acidVoltage (self w)
  /\ ~ store_written (trace r).
Proof.
  intros Hn Ha. cbv zeta. rewrite manualCalibration_eq.
  unfold after, trace, with_store.
  cbn [fst snd self phCalibrationFinish enterCalibrationFlag nvs].
  set (st' := <["voltage4" := _acidVoltage (self w)]>
                (<["voltage7" := _neutralVoltage (self w)]> (nvs w))).
  assert (H7 : nvs (boot st') !! "voltage7" = Some (_neutralVoltage (self w))).
  { change (nvs (boot st')) with st'. unfold st'.
    rewrite lookup_insert_ne by discriminate. apply lookup_insert_eq. }
  assert (H4 : nvs (boot st') !! "voltage4" = Some (_acidVoltage (self w))).
  { change (nvs (boot st')) with st'. unfold st'. apply lookup_insert_eq. }
  rewrite (begin_loads (boot st') _ _ H7 H4 Hn Ha).
  unfold store_written. cbn [fst snd self In].
  splits; try reflexivity.
  intros (key & value & Hin). intuition discriminate.
Qed.

(** ** Letter case of commands *)

Lemma toupper_idem (c : ascii) : toupper (toupper c) = toupper c.
Proof. destruct c as [[] [] [] [] [] [] [] []]; reflexivity. Qed.

Lemma strupr_idem (s : string) : strupr (strupr s) = strupr s.
Proof.
  induction s as [|c s IH]; [reflexivity |].
  cbn [strupr]. now rewrite toupper_idem, IH.
Qed.

Lemma strupr_app (a b : string) :
  strupr (a ++ b)%string = (strupr a ++ strupr b)%string.
Proof.
  induction a as [|c a IH]; [reflexivity |].
  rewrite append_cons. cbn [strupr]. rewrite append_cons. now rewrite IH.
Qed.

Lemma strupr_split (s a b : string) :
  strupr s = (a ++ b)%string ->
  exists a' b', s = (a' ++ b')%string /\ strupr a' = a /\ strupr b' = b.
Proof.
  revert s. induction a as [|c a IH]; intros s H.
  - exists ""%string, s. rewrite append_nil in H. now rewrite append_nil.
  - rewrite append_cons in H. destruct s as [|c' s]; [discriminate |].
    cbn [strupr] in H. injection H as Hc Hs.
    destruct (IH s Hs) as (a' & b' & -> & Ha & Hb).
    exists (String c' a'), b'. rewrite append_cons. cbn [strupr].
    now rewrite Hc, Ha.
Qed.

(** a keyword is found in the upper-cased command exactly when the command
    holds some spelling of it *)
Lemma contains_strupr (cmd keyword : string) :
  contains (strupr cmd) keyword <->
  exists pre x post,
    cmd = (pre ++ x ++ post)%string /\ strupr x = keyword.
Proof.
  split.
  - intros (pre & post & H).
    destruct (strupr_split _ _ _ H) as (pre' & rest & -> & _ & Hrest).
    destruct (strupr_split _ _ _ Hrest) as (x & post' & -> & Hx & _).
    exists pre', x, post'. split; [reflexivity | exact Hx].
  - intros (pre & x & post & -> & Hx).
    exists (strupr pre), (strupr post).
    now rewrite !strupr_app, Hx.
Qed.

(** X11: commands are recognised in any letter case. [calibration] acts
    on a command as on its upper-cased form, and it takes a command for
    EnterCalibration exactly when the command contains a substring whose
    upper-casing is "ENTERPH" (so "enterph", "EnterPh", ... all enter). *)
Theorem calibration_ignores_case (cmd : string) (w : World) :
  calibration (strupr cmd) w = calibration cmd w
  /\ (cmdParse (strupr cmd) = mode_of EnterCalibration <->
      exists pre x post,
        cmd = (pre ++ x ++ post)%string /\ strupr x = "ENTERPH"%string).
Proof.
  split.
  - unfold calibration. now rewrite strupr_idem.
  - rewrite <- contains_strupr, <- strstr_contains.
    unfold cmdParse, mode_of.
    destruct (strstr (strupr cmd) "ENTERPH") as [e|].
    + split; [intros _; eexists; reflexivity | reflexivity].
    + split.
      * destruct (strstr (strupr cmd) "EXITPH");
          [| destruct (strstr (strupr cmd) "CALPH")]; discriminate.
      * intros [x Hx]. discriminate.
Qed.

(** ** Readings that are not finite *)

Lemma getPH_eq (temp_in : float) (analogRead : Z) (w : World) :
  let voltage :=
    F32.mul (F32.div (F32.of_int analogRead) (ESPADC (self w)))
            (F32.of_int (ESPVOLTAGE (self w))) in
  let slope := readPH_slope (_neutralVoltage (self w)) (_acidVoltage (self w)) in
  let intercept := readPH_intercept slope (_neutralVoltage (self w)) in
  let pH := readPH_value slope intercept voltage in
  getPH temp_in analogRead w
  = (pH,
     {| self := with_phValue pH
                  (with_temperature temp_in (with_voltage voltage (self w)));
        phCalibrationFinish := phCalibrationFinish w;
        enterCalibrationFlag := enterCalibrationFlag w;
        nvs := nvs w |},
     [Serial_println_float voltage]).
Proof.
  destruct w as [d fin ent st].
  unfold readPH_value, readPH_intercept, readPH_slope. eff_run.
  reflexivity.
Qed.

Lemma div32_by_zero (x : float) (s : bool) :
  is_finite (F32.div x (S754_zero s)) = false.
Proof. destruct x; reflexivity. Qed.

Lemma mul32_not_finite_l (x y : float) :
  is_finite x = false -> is_finite (F32.mul x y) = false.
Proof.
  destruct x as [s|s| |s m e]; simpl; try congruence; intros _;
    destruct y; reflexivity.
Qed.

Lemma sub_not_finite_l (x y : double) :
  is_finite x = false -> is_finite (F64.sub x y) = false.
Proof.
  destruct x as [s|s| |s m e]; simpl; try congruence; intros _;
    try reflexivity;
    destruct y as [sy|sy| |sy my ey]; try reflexivity;
    destruct s, sy; reflexivity.
Qed.

Lemma mul_not_finite_r (x y : double) :
  is_finite y = false -> is_finite (F64.mul x y) = false.
Proof.
  destruct y as [s|s| |s m e]; simpl; try congruence; intros _;
    destruct x; reflexivity.
Qed.

Lemma add_not_finite_l (x y : double) :
  is_finite x = false -> is_finite (F64.add x y) = false.
Proof.
  destruct x as [s|s| |s m e]; simpl; try congruence; intros _;
    try reflexivity;
    destruct y as [sy|sy| |sy my ey]; try reflexivity;
    destruct s, sy; reflexivity.
Qed.

Lemma value_of_non_finite_voltage (slope intercept voltage : float) :
  is_finite voltage = false ->
  is_finite (readPH_value slope intercept voltage) = false.
Proof.
  intros H. unfold readPH_value.
  apply of_double_not_finite, add_not_finite_l, div_3_not_finite,
    mul_not_finite_r, sub_not_finite_l, of_float_not_finite, H.
Qed.

(** X12: a zero [ESPADC] poisons every reading. If the driver was set up
    with an ADC range of 0, then for every converter reading, supply
    voltage and pair of constants [getPH] divides by zero: the voltage it
    stores and the pH it returns and stores are not finite. *)
Theorem getPH_zero_ESPADC (temp_in : float) (analogRead : Z) (w : World) :
  feq (ESPADC (self w)) (F32.of_int 0) = true ->
  let r := getPH temp_in analogRead w in
  is_finite (_voltage (self (after r))) = false
  /\ is_finite (result r) = false
  /\ _phValue (self (after r)) = result r.
Proof.
  intros Hz. destruct (feq_zero_inv _ Hz) as [s Hs]. cbv zeta.
  rewrite getPH_eq. cbv zeta. rewrite Hs.
  unfold after, result.
  cbn [fst snd self _voltage _phValue with_phValue with_temperature with_voltage].
  assert (Hv : is_finite
                 (F32.mul (F32.div (F32.of_int analogRead) (S754_zero s))
                          (F32.of_int (ESPVOLTAGE (self w)))) = false)
    by apply mul32_not_finite_l, div32_by_zero.
  splits; [exact Hv | | reflexivity].
  apply value_of_non_finite_voltage, Hv.
Qed.

(** ** A sample accepted and then not saved *)

Lemma take_reading_neutral_eq (w : World) :
  enterCalibrationFlag w = true ->
  neutral_band (_voltage (self w)) = true ->
  phCalibration 2 w =
    (tt,
     {| self := with_neutralVoltage (_voltage (self w)) (self w);
        phCalibrationFinish := true; enterCalibrationFlag := true;
        nvs := nvs w |},
     [Serial_println ""; Serial_print ">>>Buffer Solution:7.0";
      Serial_println ",Send EXITPH to Save and Exit<<<"; Serial_println ""]).
Proof.
  destruct w as [d fin ent st]. intros He Hb.
  cbn [enterCalibrationFlag self] in He, Hb. subst ent.
  unfold neutral_band in Hb. cbv [_voltage] in Hb.
  eff_run. rewrite Hb. reflexivity.
Qed.

Lemma exit_acid_eq (w : World) :
  enterCalibrationFlag w = true -> phCalibrationFinish w = true ->
  neutral_commit_band (_voltage (self w)) = false ->
  acid_commit_band (_voltage (self w)) = true ->
  phCalibration 3 w =
    (tt,
     {| self := self w; phCalibrationFinish := false;
        enterCalibrationFlag := false;
        nvs := <["voltage4" := _acidVoltage (self w)]> (nvs w) |},
     [Serial_println ""; preferences_begin "pHVals" false;
      preferences_putFloat "voltage4" (_acidVoltage (self w));
      Serial_print "PH 4 Calibration value SAVE THIS FOR LATER: ";
      Serial_print_float (_acidVoltage (self w));
      Serial_print ">>>Calibration Successful"; preferences_end;
      Serial_println ",Exit PH Calibration Mode<<<"; Serial_println ""]).
Proof.
  destruct w as [d fin ent st]. intros He Hf Hn Ha.
  cbn [enterCalibrationFlag phCalibrationFinish self] in He, Hf, Hn, Ha.
  subst ent fin. unfold neutral_commit_band in Hn. unfold acid_commit_band in Ha.
  cbv [_voltage] in Hn, Ha.
  eff_run. rewrite Hn, Ha. reflexivity.
Qed.

(** X20: an accepted sample is saved only if the probe is still in its
    band at the exit. If a neutral sample is accepted and the next voltage
    reading falls in the acid commit band, then ExitAndSave, without a
    further TakeReading, reports Calibration Successful and writes
    "voltage4" with the acid constant from before the session; the
    accepted neutral sample stays in memory but is not written, the store
    keeps its old "voltage7". *)
Theorem accepted_sample_not_saved_after_move
    (w : World) (temp_in : float) (analogRead : Z) :
  enterCalibrationFlag w = true ->
  neutral_band (_voltage (self w)) = true ->
  let w1 := after (phCalibration (mode_of TakeReading) w) in
  let w2 := after (getPH temp_in analogRead w1) in
  let r := phCalibration (mode_of ExitAndSave) w2 in
  neutral_commit_band (_voltage (self w2)) = false ->
  acid_commit_band (_voltage (self w2)) = true ->
  CalibrationSucceeded (trace r)
  /\ In (preferences_putFloat "voltage4" (_acidVoltage (self w))) (trace r)
  /\ nvs (after r) = <["voltage4" := _acidVoltage (self w)]> (nvs w)
  /\ nvs (after r) !! "voltage7" = nvs w !! "voltage7"
  /\ _neutralVoltage (self (after r)) = _voltage (self w)
  /\ _acidVoltage (self (after r)) = _acidVoltage (self w).
Proof.
  intros He Hb. cbv zeta. unfold mode_of.
  set (w1 := {| self := with_neutralVoltage (_voltage (self w)) (self w);
                phCalibrationFinish := true; enterCalibrationFlag := true;
                nvs := nvs w |}).
  replace (after (phCalibration 2 w)) with w1
    by (now rewrite (take_reading_neutral_eq w He Hb)).
  pose proof (getPH_frame temp_in analogRead w1) as HF. cbv zeta in HF.
  destruct HF as (Hf & Hen & Hs & Hn & Ha).
  set (w2 := after (getPH temp_in analogRead w1)) in *.
  intros Hnc Hac.
  assert (Hs' : nvs w2 = nvs w) by exact Hs.
  assert (Hn' : _neutralVoltage (self w2) = _voltage (self w)) by exact Hn.
  assert (Ha' : _acidVoltage (self w2) = _acidVoltage (self w)) by exact Ha.
  clearbody w2. clear Hs Hn Ha.
  rewrite (exit_acid_eq w2 Hen Hf Hnc Hac).
  unfold trace, after, CalibrationSucceeded.
  cbn [fst snd self nvs In].
  rewrite Hs', Hn', Ha'.
  splits; try reflexivity; try tauto.
  apply lookup_insert_ne. discriminate.
Qed.

End MoreProperties.

(** ** The command transport *)

Section ReceptionProperties.

Context {rcv : Receiver}.

Lemma toupper_not_NUL (c : ascii) : c <> NUL -> toupper c <> NUL.
Proof.
  destruct c as [[] [] [] [] [] [] [] []]; intros H; vm_compute;
    first [discriminate | intros _; apply H; reflexivity].
Qed.

Lemma buf_strupr_some (buf : list ascii) (k : nat) :
  buf !! k = Some NUL ->
  exists buf', buf_strupr buf = Some buf'
    /\ length buf' = length buf
    /\ (forall i, buf !! i = Some NUL -> buf' !! i = Some NUL).
Proof.
  revert k. induction buf as [|c buf IH]; intros k Hk; [discriminate |].
  cbn [buf_strupr]. destruct (Ascii.eqb_spec c NUL) as [-> | Hc].
  - eexists. split; [reflexivity |]. split; [reflexivity | auto].
  - destruct k as [|k]; [cbn in Hk; congruence |].
    destruct (IH k Hk) as (buf' & -> & Hlen & Hnul).
    eexists. split; [reflexivity |]. split; [cbn; now rewrite Hlen |].
    intros [|i] Hi; [cbn in Hi; congruence | cbn in *; auto].
Qed.

Lemma memset_whole (buf : list ascii) :
  memset_zero (Z.of_nat (length buf)) buf = Some (replicate (length buf) NUL).
Proof.
  unfold memset_zero.
  replace (0 <=? Z.of_nat (length buf)) with true by (symmetry; apply Z.leb_le; lia).
  rewrite Z.leb_refl. cbn [andb]. rewrite Nat2Z.id.
  now rewrite drop_all, app_nil_r.
Qed.

Lemma receive_safe (rx buf : list ascii) (index timeout : Z) (calls : nat) :
  Z.of_nat (length buf) = ReceivedBufferLength ->
  0 <= index <= ReceivedBufferLength - 1 ->
  buf !! Z.to_nat (ReceivedBufferLength - 1) = Some NUL ->
  exists b t',
    receive rx buf index timeout calls = Some (b, t')
    /\ receiver_ok t'
    /\ (b = true -> _cmdReceivedBufferIndex t' = 0)
    /\ (b = false -> Serial_rx t' = [])
    /\ (exists consumed, rx = consumed ++ Serial_rx t').
Proof.
  revert buf index timeout calls.
  induction rx as [|c rest IH]; intros buf index timeout calls Hlen Hidx Hnul.
  - eexists _, _. split; [reflexivity |]. unfold receiver_ok. cbn.
    splits; auto; try lia; try discriminate. exists []. reflexivity.
  - cbn [receive].
    assert (Hclear : exists index' buf',
      (if 500 <? ulong (millis calls - timeout)
       then pair 0 <$> memset_zero ReceivedBufferLength buf
       else Some (index, buf)) = Some (index', buf')
      /\ Z.of_nat (length buf') = ReceivedBufferLength
      /\ 0 <= index' <= ReceivedBufferLength - 1
      /\ buf' !! Z.to_nat (ReceivedBufferLength - 1) = Some NUL).
    { destruct (500 <? ulong (millis calls - timeout)).
      - rewrite <- Hlen, memset_whole. eexists _, _. split; [reflexivity |].
        rewrite length_replicate. splits; try lia.
        apply lookup_replicate_2. lia.
      - eexists _, _. split; [reflexivity |]. auto. }
    destruct Hclear as (index' & buf' & -> & Hlen' & Hidx' & Hnul').
    cbn [mbind option_bind].
    destruct (Ascii.eqb c newline || (index' =? ReceivedBufferLength - 1)) eqn:Hdone.
    + destruct (buf_strupr_some buf' _ Hnul') as (up & -> & Hup & Hupnul).
      cbn [mbind option_bind].
      eexists _, _. split; [reflexivity |]. unfold receiver_ok. cbn.
      splits; auto; try lia; try discriminate.
      exists [c]. reflexivity.
    + apply orb_false_iff in Hdone as (_ & Hne). apply Z.eqb_neq in Hne.
      unfold store_char.
      replace ((0 <=? index') && (index' <? Z.of_nat (length buf'))) with true
        by (symmetry; apply andb_true_iff; split;
            [apply Z.leb_le | apply Z.ltb_lt]; lia).
      cbn [mbind option_bind].
      destruct (IH (<[Z.to_nat index' := c]> buf') (index' + 1)
                   (millis (S calls)) (S (S calls)))
        as (b & t' & Hr & Hok & Ht & Hf & consumed & Hc).
      * rewrite length_insert. exact Hlen'.
      * lia.
      * rewrite list_lookup_insert_ne by lia. exact Hnul'.
      * exists b, t'. splits; auto. exists (c :: consumed). now rewrite Hc at 1.
Qed.

(** X13: polling the port never leaves the receive buffer. From any state
    in which the buffer has its declared length, the index is inside it and
    the last cell holds a NUL, [cmdSerialDataAvailable] is defined for
    every queue of bytes and every clock, and the three facts hold again
    afterwards. When it returns true the index is back at 0; when it
    returns false the queue is drained; it only ever consumes a prefix of
    the queue. *)
Theorem cmdSerialDataAvailable_safe (t : Transport) :
  receiver_ok t ->
  exists b t',
    cmdSerialDataAvailable t = Some (b, t')
    /\ receiver_ok t'
    /\ (b = true -> _cmdReceivedBufferIndex t' = 0)
    /\ (b = false -> Serial_rx t' = [])
    /\ (exists consumed, Serial_rx t = consumed ++ Serial_rx t').
Proof.
  intros (Hlen & Hidx & Hnul). unfold cmdSerialDataAvailable.
  destruct (cmdReceivedTimeOut t); now apply receive_safe.
Qed.

Lemma receive_line_at (line : list ascii) (c : ascii) (rest buf : list ascii)
    (i : nat) (timeout : Z) (calls n1 n2 : nat) :
  n1 = (calls + 2 * length line + 1)%nat ->
  n2 = (calls + 2 * length line + 2)%nat ->
  Z.of_nat (length buf) = ReceivedBufferLength ->
  Z.of_nat (i + length line) <= ReceivedBufferLength - 1 ->
  Forall (fun x => x <> newline) line ->
  c = newline \/ Z.of_nat (i + length line) = ReceivedBufferLength - 1 ->
  calm (S (length line)) timeout calls ->
  receive (line ++ c :: rest) buf (Z.of_nat i) timeout calls =
    up ← buf_strupr (take i buf ++ line ++ drop (i + length line) buf);
    Some (true,
          {| _cmdReceivedBuffer := up; _cmdReceivedBufferIndex := 0;
             cmdReceivedTimeOut := Some (millis n1);
             Serial_rx := rest;
             millis_calls := n2 |}).
Proof.
  revert buf i timeout calls.
  induction line as [|x line IH];
    intros buf i timeout calls Hn1 Hn2 Hlen Hfit Hnl Hc Hcalm.
  - cbn [length] in *.
    replace n1 with (S calls) by lia. replace n2 with (S (S calls)) by lia.
    replace (i + 0)%nat with i in * by lia.
    cbn [app receive]. destruct Hcalm as (Hq & _).
    replace (500 <? ulong (millis calls - timeout)) with false
      by (symmetry; apply Z.ltb_ge; exact Hq).
    cbn [mbind option_bind].
    replace (Ascii.eqb c newline || (Z.of_nat i =? ReceivedBufferLength - 1))
      with true.
    2:{ symmetry. apply orb_true_iff. destruct Hc as [-> | Hc].
        - left. apply Ascii.eqb_refl.
        - right. apply Z.eqb_eq. lia. }
    rewrite take_drop. reflexivity.
  - cbn [length] in *.
    replace (i + S (length line))%nat with (S i + length line)%nat in * by lia.
    destruct Hcalm as (Hq & Hcalm).
    inversion Hnl as [|? ? Hx Hnl']; subst x0 l.
    cbn [app receive].
    replace (500 <? ulong (millis calls - timeout)) with false
      by (symmetry; apply Z.ltb_ge; exact Hq).
    cbn [mbind option_bind].
    replace (Ascii.eqb x newline || (Z.of_nat i =? ReceivedBufferLength - 1))
      with false.
    2:{ symmetry. apply orb_false_iff. split.
        - apply Ascii.eqb_neq. exact Hx.
        - apply Z.eqb_neq. lia. }
    unfold store_char.
    replace ((0 <=? Z.of_nat i) && (Z.of_nat i <? Z.of_nat (length buf)))
      with true
      by (symmetry; apply andb_true_iff; split;
          [apply Z.leb_le | apply Z.ltb_lt]; lia).
    cbn [mbind option_bind]. rewrite Nat2Z.id.
    replace (Z.of_nat i + 1) with (Z.of_nat (S i)) by lia.
    rewrite (IH (<[i := x]> buf) (S i) (millis (S calls)) (S (S calls)));
      [| lia | lia | now rewrite length_insert | lia | exact Hnl'
       | destruct Hc as [Hc | Hc]; [left; exact Hc | right; lia]
       | exact Hcalm].
    rewrite (take_S_r _ i x) by (apply list_lookup_insert_eq; lia).
    rewrite take_insert_ge by lia.
    rewrite drop_insert_lt by lia.
    rewrite <- app_assoc. reflexivity.
Qed.

Lemma receive_line (line : list ascii) (c : ascii) (rest buf : list ascii)
    (i : nat) (timeout : Z) (calls : nat) :
  Z.of_nat (length buf) = ReceivedBufferLength ->
  Z.of_nat (i + length line) <= ReceivedBufferLength - 1 ->
  Forall (fun x => x <> newline) line ->
  c = newline \/ Z.of_nat (i + length line) = ReceivedBufferLength - 1 ->
  calm (S (length line)) timeout calls ->
  receive (line ++ c :: rest) buf (Z.of_nat i) timeout calls =
    up ← buf_strupr (take i buf ++ line ++ drop (i + length line) buf);
    Some (true,
          {| _cmdReceivedBuffer := up; _cmdReceivedBufferIndex := 0;
             cmdReceivedTimeOut := Some (millis (calls + 2 * length line + 1));
             Serial_rx := rest;
             millis_calls := calls + 2 * length line + 2 |}).
Proof. now apply receive_line_at. Qed.

Lemma c_str_app (l k : list ascii) :
  Forall (fun x => x <> NUL) l ->
  c_str (l ++ k) = (string_of_list_ascii l ++ c_str k)%string.
Proof.
  induction 1 as [|x l Hx Hl IH]; [reflexivity |].
  cbn [app c_str string_of_list_ascii].
  destruct (Ascii.eqb_spec x NUL) as [-> | _]; [congruence |].
  rewrite append_cons. now rewrite IH.
Qed.

Lemma c_str_buf_strupr (buf up : list ascii) :
  buf_strupr buf = Some up -> c_str up = strupr (c_str buf).
Proof.
  revert up. induction buf as [|c buf IH]; intros up H; [discriminate |].
  cbn [buf_strupr] in H. cbn [c_str].
  destruct (Ascii.eqb_spec c NUL) as [-> | Hc].
  - injection H as <-. reflexivity.
  - destruct (buf_strupr buf) as [up' |]; [| discriminate].
    injection H as <-. cbn [c_str strupr].
    destruct (Ascii.eqb_spec (toupper c) NUL) as [E | _].
    + exfalso. exact (toupper_not_NUL c Hc E).
    + now rewrite (IH up').
Qed.

Lemma c_str_zeros (n : nat) : c_str (replicate n NUL) = EmptyString.
Proof. destruct n; reflexivity. Qed.

Lemma append_empty_r (s : string) : (s ++ "")%string = s.
Proof. induction s as [|c s IH]; [reflexivity |]. now rewrite append_cons, IH. Qed.

Lemma poll_as_receive (t : Transport) :
  cmdSerialDataAvailable t
  = receive (Serial_rx t) (_cmdReceivedBuffer t) (_cmdReceivedBufferIndex t)
            (armed t).1 (armed t).2.
Proof.
  unfold cmdSerialDataAvailable, armed.
  destruct (cmdReceivedTimeOut t); reflexivity.
Qed.

(** a line laid over the buffer from cell 0 leaves the terminator in place *)
Lemma overlay_terminated (line buf : list ascii) :
  Z.of_nat (length buf) = ReceivedBufferLength ->
  Z.of_nat (length line) <= ReceivedBufferLength - 1 ->
  buf !! Z.to_nat (ReceivedBufferLength - 1) = Some NUL ->
  (line ++ drop (length line) buf) !! Z.to_nat (ReceivedBufferLength - 1)
  = Some NUL.
Proof.
  intros Hlen Hfit Hnul.
  rewrite lookup_app_r by lia. rewrite lookup_drop.
  replace (length line + (Z.to_nat (ReceivedBufferLength - 1) - length line))%nat
    with (Z.to_nat (ReceivedBufferLength - 1)) by lia.
  exact Hnul.
Qed.

Lemma receive_from_zero (line : list ascii) (c : ascii) (rest : list ascii)
    (t : Transport) (timeout : Z) (calls : nat) :
  receiver_ok t ->
  Z.of_nat (length line) <= ReceivedBufferLength - 1 ->
  Forall (fun x => x <> newline /\ x <> NUL) line ->
  c = newline \/ Z.of_nat (length line) = ReceivedBufferLength - 1 ->
  calm (S (length line)) timeout calls ->
  exists t',
    receive (line ++ c :: rest) (_cmdReceivedBuffer t) 0 timeout calls
      = Some (true, t')
    /\ Serial_rx t' = rest
    /\ _cmdReceivedBufferIndex t' = 0
    /\ c_str (_cmdReceivedBuffer t')
       = (strupr (string_of_list_ascii line)
          ++ strupr (c_str (drop (length line) (_cmdReceivedBuffer t))))%string.
Proof.
  intros (Hlen & Hidx & Hnul) Hfit Hline Hc Hcalm.
  assert (Hnl : Forall (fun x => x <> newline) line)
    by (eapply Forall_impl; [exact Hline | tauto]).
  assert (Hnn : Forall (fun x => x <> NUL) line)
    by (eapply Forall_impl; [exact Hline | tauto]).
  change 0 with (Z.of_nat 0).
  rewrite (receive_line line c rest _ 0 timeout calls Hlen Hfit Hnl Hc Hcalm).
  change (take 0 (_cmdReceivedBuffer t) ++ line
          ++ drop (0 + length line) (_cmdReceivedBuffer t))
    with (line ++ drop (length line) (_cmdReceivedBuffer t)).
  destruct (buf_strupr_some _ _ (overlay_terminated line _ Hlen Hfit Hnul))
    as (up & Hup & _ & _).
  rewrite Hup. cbn [mbind option_bind].
  eexists. split; [reflexivity |]. cbn.
  splits; try reflexivity.
  rewrite (c_str_buf_strupr _ _ Hup), (c_str_app _ _ Hnn).
  apply strupr_app.
Qed.

(** X14: the buffer is not cleared between two lines. When a whole line
    (no newline or NUL inside, short enough for the buffer) is waiting, the
    index is 0 and no timeout test fires, the poll returns true, takes the
    line and its newline off the queue, and the command then in the buffer
    is the upper-cased line followed by whatever the buffer held beyond
    the line's length: the tail of a longer earlier command stays. *)
Theorem line_keeps_stale_tail (t : Transport) (line rest : list ascii) :
  receiver_ok t ->
  _cmdReceivedBufferIndex t = 0 ->
  Serial_rx t = line ++ newline :: rest ->
  Forall (fun x => x <> newline /\ x <> NUL) line ->
  Z.of_nat (length line) <= ReceivedBufferLength - 1 ->
  calm (S (length line)) (armed t).1 (armed t).2 ->
  exists t',
    cmdSerialDataAvailable t = Some (true, t')
    /\ Serial_rx t' = rest
    /\ _cmdReceivedBufferIndex t' = 0
    /\ c_str (_cmdReceivedBuffer t')
       = (strupr (string_of_list_ascii line)
          ++ strupr (c_str (drop (length line) (_cmdReceivedBuffer t))))%string.
Proof.
  intros Hok Hidx Hrx Hline Hfit Hcalm.
  rewrite poll_as_receive, Hrx, Hidx.
  apply receive_from_zero; auto.
Qed.

(** X15: a line longer than the buffer is cut. With the index at 0 and no
    timeout, [ReceivedBufferLength - 1] characters followed by any further
    character complete a command: the poll returns true, the command is the
    upper-cased first [ReceivedBufferLength - 1] characters, the further
    character is consumed and stored nowhere, and what follows it stays in
    the queue for the next poll. *)
Theorem overlong_line_is_cut (t : Transport) (chunk : list ascii) (c : ascii)
    (rest : list ascii) :
  receiver_ok t ->
  _cmdReceivedBufferIndex t = 0 ->
  Serial_rx t = chunk ++ c :: rest ->
  Z.of_nat (length chunk) = ReceivedBufferLength - 1 ->
  Forall (fun x => x <> newline /\ x <> NUL) chunk ->
  calm (S (length chunk)) (armed t).1 (armed t).2 ->
  exists t',
    cmdSerialDataAvailable t = Some (true, t')
    /\ Serial_rx t' = rest
    /\ _cmdReceivedBufferIndex t' = 0
    /\ c_str (_cmdReceivedBuffer t') = strupr (string_of_list_ascii chunk).
Proof.
  intros Hok Hidx Hrx Hlen Hchunk Hcalm.
  rewrite poll_as_receive, Hrx, Hidx.
  assert (Hfit : Z.of_nat (length chunk) <= ReceivedBufferLength - 1) by lia.
  destruct (receive_from_zero chunk c rest t _ _ Hok Hfit Hchunk
              (or_intror Hlen) Hcalm) as (t' & Hr & Hq & Hi & Hs).
  exists t'. splits; auto. rewrite Hs.
  destruct Hok as (Hl & _ & Hnul).
  assert (Hd : drop (length chunk) (_cmdReceivedBuffer t) = [NUL]).
  { replace (length chunk) with (Z.to_nat (ReceivedBufferLength - 1)) by lia.
    apply drop_S in Hnul. rewrite Hnul.
    rewrite drop_ge by lia. reflexivity. }
  rewrite Hd. cbn [c_str]. rewrite Ascii.eqb_refl. cbn [strupr].
  apply append_empty_r.
Qed.

Lemma ulong_zero (z : Z) : ulong (z - z) <= 500.
Proof. unfold ulong. rewrite Z.sub_diag. vm_compute. discriminate. Qed.

Lemma receive_after_timeout (rx buf : list ascii) (index timeout : Z) (calls : nat) :
  rx <> [] ->
  Z.of_nat (length buf) = ReceivedBufferLength ->
  500 < ulong (millis calls - timeout) ->
  receive rx buf index timeout calls
  = receive rx (replicate (length buf) NUL) 0 (millis calls) calls.
Proof.
  intros Hrx Hlen Hfire. destruct rx as [|c rest]; [congruence |].
  cbn [receive].
  replace (500 <? ulong (millis calls - timeout)) with true
    by (symmetry; apply Z.ltb_lt; exact Hfire).
  replace (500 <? ulong (millis calls - millis calls)) with false
    by (symmetry; apply Z.ltb_ge; apply ulong_zero).
  rewrite <- Hlen at 1. rewrite memset_whole. reflexivity.
Qed.

Lemma line_after_pause_core (t : Transport) (stamp : Z) (line rest : list ascii) :
  receiver_ok t ->
  cmdReceivedTimeOut t = Some stamp ->
  500 < ulong (millis (millis_calls t) - stamp) ->
  Serial_rx t = line ++ newline :: rest ->
  Forall (fun x => x <> newline /\ x <> NUL) line ->
  Z.of_nat (length line) <= ReceivedBufferLength - 1 ->
  calm (length line) (millis (S (millis_calls t))) (S (S (millis_calls t))) ->
  exists t',
    cmdSerialDataAvailable t = Some (true, t')
    /\ Serial_rx t' = rest
    /\ _cmdReceivedBufferIndex t' = 0
    /\ c_str (_cmdReceivedBuffer t') = strupr (string_of_list_ascii line)
    /\ cmdParse_buffer t' = cmdParse (strupr (string_of_list_ascii line)).
Proof.
  intros Hok Hstamp Hfire Hrx Hline Hfit Hcalm.
  pose proof Hok as (Hlen & Hidx & Hnul).
  unfold cmdSerialDataAvailable. rewrite Hstamp, Hrx.
  rewrite receive_after_timeout; [| now destruct line | exact Hlen | exact Hfire].
  set (cleared := {| _cmdReceivedBuffer := replicate (length (_cmdReceivedBuffer t)) NUL;
                     _cmdReceivedBufferIndex := 0;
                     cmdReceivedTimeOut := None; Serial_rx := [];
                     millis_calls := 0 |}).
  assert (Hokc : receiver_ok cleared).
  { unfold receiver_ok, cleared. cbn. rewrite length_replicate.
    splits; try lia. apply lookup_replicate_2. lia. }
  destruct (receive_from_zero line newline rest cleared
              (millis (millis_calls t)) (millis_calls t) Hokc Hfit Hline
              (or_introl eq_refl))
    as (t' & Hr & Hq & Hi & Hs).
  { split; [apply ulong_zero | exact Hcalm]. }
  exists t'. cbn [_cmdReceivedBuffer cleared] in Hr, Hs.
  assert (Hc : c_str (_cmdReceivedBuffer t') = strupr (string_of_list_ascii line)).
  { rewrite Hs, drop_replicate, c_str_zeros. cbn [strupr].
    apply append_empty_r. }
  splits; auto. unfold cmdParse_buffer. now rewrite Hc.
Qed.

(** X16: after a pause the command is the line. If more than 500 ms have
    passed since the last byte when a whole line is read, the first
    timeout test clears the buffer and the index, wherever they were; if no
    later test fires the poll returns true and the command in the buffer is
    exactly the upper-cased line, so the buffer overload of [cmdParse]
    gives what [cmdParse] gives on the upper-cased line. *)
Theorem line_after_pause (t : Transport) (stamp : Z) (line rest : list ascii) :
  receiver_ok t ->
  cmdReceivedTimeOut t = Some stamp ->
  500 < ulong (millis (millis_calls t) - stamp) ->
  Serial_rx t = line ++ newline :: rest ->
  Forall (fun x => x <> newline /\ x <> NUL) line ->
  Z.of_nat (length line) <= ReceivedBufferLength - 1 ->
  calm (length line) (millis (S (millis_calls t))) (S (S (millis_calls t))) ->
  exists t',
    cmdSerialDataAvailable t = Some (true, t')
    /\ Serial_rx t' = rest
    /\ _cmdReceivedBufferIndex t' = 0
    /\ c_str (_cmdReceivedBuffer t') = strupr (string_of_list_ascii line)
    /\ cmdParse_buffer t' = cmdParse (strupr (string_of_list_ascii line)).
Proof. apply line_after_pause_core. Qed.

Lemma receive_app (a r buf : list ascii) (index timeout : Z) (calls : nat)
    (t1 : Transport) :
  receive a buf index timeout calls = Some (false, t1) ->
  exists stamp,
    cmdReceivedTimeOut t1 = Some stamp
    /\ Serial_rx t1 = []
    /\ receive (a ++ r) buf index timeout calls
       = receive r (_cmdReceivedBuffer t1) (_cmdReceivedBufferIndex t1)
                 stamp (millis_calls t1).
Proof.
  revert buf index timeout calls.
  induction a as [|c a IH]; intros buf index timeout calls H.
  - cbn [receive] in H. injection H as <-. exists timeout. cbn. auto.
  - cbn [app receive] in *.
    destruct (if 500 <? ulong (millis calls - timeout)
              then pair 0 <$> memset_zero ReceivedBufferLength buf
              else Some (index, buf)) as [[index' buf'] |];
      [| discriminate].
    cbn [mbind option_bind] in *.
    destruct (Ascii.eqb c newline || (index' =? ReceivedBufferLength - 1)).
    + destruct (buf_strupr buf'); discriminate.
    + destruct (store_char index' c buf') as [buf'' |]; [| discriminate].
      cbn [mbind option_bind] in *. now apply IH.
Qed.

(** X17: bytes may reach the port in pieces. If a poll finds only part of
    a line and returns false, then whatever arrives next is polled exactly
    as if it had been in the queue from the start: the result of the
    second poll is the result of a single poll over the whole queue, for
    every buffer state and every clock. *)
Theorem poll_in_pieces (t t1 : Transport) (later : list ascii) :
  cmdSerialDataAvailable t = Some (false, t1) ->
  Serial_rx t1 = []
  /\ cmdSerialDataAvailable (arrive later t1)
     = cmdSerialDataAvailable (arrive later t).
Proof.
  intros H. rewrite poll_as_receive in H.
  destruct (receive_app _ later _ _ _ _ _ H) as (stamp & Hs & Hrx & Happ).
  split; [exact Hrx |].
  rewrite (poll_as_receive (arrive later t)).
  change (armed (arrive later t)) with (armed t).
  cbn [arrive Serial_rx _cmdReceivedBuffer _cmdReceivedBufferIndex].
  rewrite Happ. unfold cmdSerialDataAvailable.
  cbn [arrive cmdReceivedTimeOut Serial_rx _cmdReceivedBuffer
       _cmdReceivedBufferIndex millis_calls].
  rewrite Hs, Hrx. reflexivity.
Qed.

(** X21: a newline that comes late discards the command. If the byte at
    the head of the queue is a newline and more than 500 ms have passed
    since the previous byte, the timeout test clears the buffer before the
    line is completed: the poll returns true with an empty command,
    whatever had been received before, and the buffer overload of
    [cmdParse] gives the none intent. *)
Theorem late_newline_discards_command (t : Transport) (rest : list ascii) :
  receiver_ok t ->
  Serial_rx t = newline :: rest ->
  500 < ulong (millis (armed t).2 - (armed t).1) ->
  exists t',
    cmdSerialDataAvailable t = Some (true, t')
    /\ Serial_rx t' = rest
    /\ _cmdReceivedBufferIndex t' = 0
    /\ c_str (_cmdReceivedBuffer t') = EmptyString
    /\ cmdParse_buffer t' = mode_of IntentNone.
Proof.
  intros Hok Hrx Hfire. pose proof Hok as (Hlen & Hidx & Hnul).
  rewrite poll_as_receive, Hrx.
  rewrite receive_after_timeout; [| discriminate | exact Hlen | exact Hfire].
  set (cleared := {| _cmdReceivedBuffer := replicate (length (_cmdReceivedBuffer t)) NUL;
                     _cmdReceivedBufferIndex := 0;
                     cmdReceivedTimeOut := None; Serial_rx := [];
                     millis_calls := 0 |}).
  assert (Hokc : receiver_ok cleared).
  { unfold receiver_ok, cleared. cbn. rewrite length_replicate.
    splits; try lia. apply lookup_replicate_2. lia. }
  destruct (receive_from_zero [] newline rest cleared
              (millis (armed t).2) (armed t).2 Hokc)
    as (t' & Hr & Hq & Hi & Hs).
  { cbn [length]. lia. }
  { constructor. }
  { left. reflexivity. }
  { split; [apply ulong_zero | exact I]. }
  exists t'. cbn [_cmdReceivedBuffer cleared app] in Hr, Hs.
  assert (Hc : c_str (_cmdReceivedBuffer t') = EmptyString).
  { rewrite Hs. change (length (@nil ascii)) with 0%nat.
    rewrite drop_0, c_str_zeros. reflexivity. }
  splits; auto. unfold cmdParse_buffer. rewrite Hc. reflexivity.
Qed.

End ReceptionProperties.

Section PollingProperties.

Context {hdr : Header} {rcv : Receiver}.

Lemma strstr_is_Some (h n : string) :
  contains h n -> exists x, strstr h n = Some x.
Proof. intros H. apply strstr_contains in H. exact H. Qed.

(** X18: the manual dialogue stores the held constants whatever is typed.
    Once a received command contains "MANCALPH", [calibration()] waits for
    two more lines. If the first of them contains "EXIT" it returns after
    the first prompt, if the second does it returns after the second
    prompt, in both cases with the driver and the store untouched.
    Otherwise it ends in [manualCalibration]: the store receives the
    constants the object holds under "voltage7" and "voltage4", the object
    is unchanged, and nothing of this depends on the two answers. If an
    awaited line never completes the call does not return. *)
Theorem manual_dialogue (w : World) (t t1 : Transport) :
  cmdSerialDataAvailable t = Some (true, t1) ->
  contains (c_str (_cmdReceivedBuffer t1)) "MANCALPH" ->
  let prompt4 := Serial_println "Manual Calibration: Please enter the voltage value for pH 4" in
  let prompt7 := Serial_println "Manual Calibration: Please enter the voltage value for pH 7" in
  (forall t2,
     cmdSerialDataAvailable t1 = Some (true, t2) ->
     contains (c_str (_cmdReceivedBuffer t2)) "EXIT" ->
     calibration_serial w t = Done (w, t2, [prompt4]))
  /\ (forall t2 t3,
       cmdSerialDataAvailable t1 = Some (true, t2) ->
       ~ contains (c_str (_cmdReceivedBuffer t2)) "EXIT" ->
       cmdSerialDataAvailable t2 = Some (true, t3) ->
       contains (c_str (_cmdReceivedBuffer t3)) "EXIT" ->
       calibration_serial w t = Done (w, t3, [prompt4; prompt7]))
  /\ (forall t2 t3,
       cmdSerialDataAvailable t1 = Some (true, t2) ->
       ~ contains (c_str (_cmdReceivedBuffer t2)) "EXIT" ->
       cmdSerialDataAvailable t2 = Some (true, t3) ->
       ~ contains (c_str (_cmdReceivedBuffer t3)) "EXIT" ->
       calibration_serial w t
       = Done (with_store (<["voltage4" := _acidVoltage (self w)]>
                             (<["voltage7" := _neutralVoltage (self w)]> (nvs w))) w,
               t3,
               [prompt4; prompt7;
                preferences_begin "pHVals" false;
                preferences_putFloat "voltage7" (_neutralVoltage (self w));
                Serial_println "PH 7 Calibration value saved";
                preferences_putFloat "voltage4" (_acidVoltage (self w));
                Serial_println "PH 4 Calibration value saved";
                preferences_end]))
  /\ (forall t2,
       cmdSerialDataAvailable t1 = Some (false, t2) ->
       calibration_serial w t = Hangs)
  /\ (forall t2 t3,
       cmdSerialDataAvailable t1 = Some (true, t2) ->
       ~ contains (c_str (_cmdReceivedBuffer t2)) "EXIT" ->
       cmdSerialDataAvailable t2 = Some (false, t3) ->
       calibration_serial w t = Hangs).
Proof.
  intros H1 Hman. cbv zeta.
  destruct (strstr_is_Some _ _ Hman) as (x & Hx).
  unfold calibration_serial, wait_for_line. rewrite H1, Hx.
  splits.
  - intros t2 H2 Hexit. rewrite H2.
    destruct (strstr_is_Some _ _ Hexit) as (y & ->). reflexivity.
  - intros t2 t3 H2 Hno H3 Hexit. rewrite H2.
    apply strstr_None in Hno. rewrite Hno, H3.
    destruct (strstr_is_Some _ _ Hexit) as (y & ->). reflexivity.
  - intros t2 t3 H2 Hno2 H3 Hno3. rewrite H2.
    apply strstr_None in Hno2. apply strstr_None in Hno3.
    rewrite Hno2, H3, Hno3, manualCalibration_eq. reflexivity.
  - intros t2 H2. rewrite H2. reflexivity.
  - intros t2 t3 H2 Hno H3. rewrite H2.
    apply strstr_None in Hno. rewrite Hno, H3. reflexivity.
Qed.

(** X19: the two overloads of [calibration] agree on a cleanly received
    line. If a whole line reaches the port after a pause of more than
    500 ms, no later timeout test fires, and its upper-casing does not
    contain "MANCALPH", then [calibration()] does to the driver exactly
    what [calibration(cmd)] does when given the line, and leaves the rest
    of the queue for the next poll. *)
Theorem calibration_serial_as_calibration
    (w : World) (t : Transport) (stamp : Z) (line rest : list ascii) :
  receiver_ok t ->
  cmdReceivedTimeOut t = Some stamp ->
  500 < ulong (millis (millis_calls t) - stamp) ->
  Serial_rx t = line ++ newline :: rest ->
  Forall (fun x => x <> newline /\ x <> NUL) line ->
  Z.of_nat (length line) <= ReceivedBufferLength - 1 ->
  calm (length line) (millis (S (millis_calls t))) (S (S (millis_calls t))) ->
  ~ contains (strupr (string_of_list_ascii line)) "MANCALPH" ->
  let r := calibration (string_of_list_ascii line) w in
  exists t',
    calibration_serial w t = Done (after r, t', trace r)
    /\ Serial_rx t' = rest
    /\ _cmdReceivedBufferIndex t' = 0.
Proof.
  intros Hok Hstamp Hfire Hrx Hline Hfit Hcalm Hman. cbv zeta.
  destruct (line_after_pause_core t stamp line rest Hok Hstamp Hfire Hrx
              Hline Hfit Hcalm) as (t' & Hpoll & Hq & Hi & Hc & Hp).
  exists t'. splits; [| exact Hq | exact Hi].
  unfold calibration_serial. rewrite Hpoll, Hc.
  apply strstr_None in Hman. rewrite Hman, Hp. reflexivity.
Qed.

End PollingProperties.

(** ** The further properties at concrete inputs *)

Lemma readings_leave_calibration_alone_witness :
  let calls := [Call_getPH (F32.of_int 25) 3600;
                Call_readPH (F32.of_int 1500) (F32.of_int 25)] in
  let r := run (hdr := typical_header) calls neutral_sampled in
  phCalibrationFinish (after r) = phCalibrationFinish neutral_sampled
  /\ nvs (after r) = nvs neutral_sampled.
Proof.
  cbv zeta.
  destruct (readings_leave_calibration_alone (hdr := typical_header)
              [Call_getPH (F32.of_int 25) 3600;
               Call_readPH (F32.of_int 1500) (F32.of_int 25)]
              neutral_sampled
              ltac:(repeat constructor)) as (Hf & _ & Hs & _).
  split; [exact Hf | exact Hs].
Defined.

Lemma phCalibration_puts_only_on_exit_witness :
  phCalibrationFinish neutral_sampled = true
  /\ neutral_commit_band (hdr := typical_header)
       (_voltage (self neutral_sampled)) = true.
Proof.
  destruct (phCalibration_puts_only_on_exit (hdr := typical_header)
              (mode_of ExitAndSave) neutral_sampled "voltage7"
              (_neutralVoltage (self neutral_sampled))
              ltac:(vm_compute; tauto))
    as (_ & _ & Hf & [(_ & _ & Hb) | (Hk & _)]).
  - split; [exact Hf | exact Hb].
  - discriminate Hk.
Defined.

Lemma only_calibration_keys_touched_witness :
  let calls := sketch_setup ++
               [Call_calibration "enterph"; Call_getPH (F32.of_int 25) 1614;
                Call_calibration "calph"; Call_calibration "exitph";
                Call_manualCalibration (F32.of_int 1500) (F32.of_int 2000)] in
  let w := boot (<["wifi" := F32.of_int 1]> ∅) in
  nvs (after (run (hdr := typical_header) calls w)) !! "wifi" = nvs w !! "wifi".
Proof.
  cbv zeta.
  destruct (only_calibration_keys_touched (hdr := typical_header)
              (sketch_setup ++
               [Call_calibration "enterph"; Call_getPH (F32.of_int 25) 1614;
                Call_calibration "calph"; Call_calibration "exitph";
                Call_manualCalibration (F32.of_int 1500) (F32.of_int 2000)])
              (boot (<["wifi" := F32.of_int 1]> ∅))) as (_ & Hs).
  apply Hs. intros [H | H]; discriminate H.
Defined.

Lemma finished_only_inside_session_witness :
  Idle (after (run (hdr := typical_header)
                 [Call_calibration "enterph"; Call_getPH (F32.of_int 25) 1614;
                  Call_calibration "calph"; Call_calibration "exitph"]
                 (boot ∅))).
Proof.
  destruct (finished_only_inside_session (hdr := typical_header)
              [Call_calibration "enterph"; Call_getPH (F32.of_int 25) 1614;
               Call_calibration "calph"; Call_calibration "exitph"] ∅)
    as (_ & Hidle).
  apply Hidle. vm_compute. reflexivity.
Defined.

Lemma enter_then_exit_fails_witness :
  let w1 := after (run (hdr := typical_header)
                     [Call_phCalibration (mode_of EnterCalibration);
                      Call_getPH (F32.of_int 25) 1614]
                     neutral_sampled) in
  let r := phCalibration (hdr := typical_header) (mode_of ExitAndSave) w1 in
  CalibrationFailed (trace r) /\ nvs (after r) = nvs neutral_sampled.
Proof.
  cbv zeta.
  destruct (enter_then_exit_fails (hdr := typical_header)
              [Call_getPH (F32.of_int 25) 1614] neutral_sampled
              ltac:(repeat constructor)) as (Hf & _ & _ & Hs & _).
  split; [exact Hf | exact Hs].
Defined.

Lemma non_finite_voltage_never_sampled_witness :
  let w := after (run (hdr := typical_header)
                    [Call_calibration "enterph"; Call_getPH (F32.of_int 25) 100]
                    (boot ∅)) in
  _voltage (self w) = S754_nan
  /\ OutOfRangeSample
       (trace (phCalibration (hdr := typical_header) (mode_of TakeReading) w)).
Proof.
  cbv zeta. split; [vm_compute; reflexivity |].
  destruct (non_finite_voltage_never_sampled (hdr := typical_header)
              (after (run (hdr := typical_header)
                        [Call_calibration "enterph";
                         Call_getPH (F32.of_int 25) 100]
                        (boot ∅)))
              ltac:(vm_compute; reflexivity))
    as (_ & _ & _ & _ & Hact & _).
  apply Hact. vm_compute. reflexivity.
Defined.

Lemma commit_survives_restart_witness :
  _neutralVoltage
    (self (after (begin (boot (nvs (after (phCalibration (hdr := typical_header)
                                            (mode_of ExitAndSave)
                                            neutral_sampled)))))))
  = _neutralVoltage (self neutral_sampled)
  /\ _acidVoltage
       (self (after (begin (boot (nvs (after (phCalibration (hdr := typical_header)
                                               (mode_of ExitAndSave)
                                               acid_sampled)))))))
     = _acidVoltage (self acid_sampled).
Proof.
  split.
  - destruct (commit_survives_restart (hdr := typical_header) neutral_sampled
                ltac:(vm_compute; reflexivity) ltac:(vm_compute; reflexivity))
      as (Hn & _).
    apply Hn; vm_compute; reflexivity.
  - destruct (commit_survives_restart (hdr := typical_header) acid_sampled
                ltac:(vm_compute; reflexivity) ltac:(vm_compute; reflexivity))
      as (_ & Ha).
    apply Ha; vm_compute; reflexivity.
Defined.

Lemma manual_save_survives_restart_witness :
  let saved := after (manualCalibration (F32.of_int 1500) (F32.of_int 2000)
                        neutral_sampled) in
  _neutralVoltage (self (after (begin (boot (nvs saved)))))
  = _neutralVoltage (self neutral_sampled).
Proof.
  cbv zeta.
  destruct (manual_save_survives_restart (F32.of_int 1500) (F32.of_int 2000)
              neutral_sampled
              ltac:(vm_compute; reflexivity) ltac:(vm_compute; reflexivity))
    as (_ & _ & _ & Hn & _).
  exact Hn.
Defined.

Lemma calibration_ignores_case_witness :
  cmdParse (strupr "please EnterPh now") = mode_of EnterCalibration.
Proof.
  destruct (calibration_ignores_case (hdr := typical_header)
              "please EnterPh now" (boot ∅)) as (_ & Hiff).
  apply Hiff. exists "please "%string, "EnterPh"%string, " now"%string.
  split; reflexivity.
Defined.

Lemma getPH_zero_ESPADC_witness :
  let w := after (init 35 (F32.of_int 0) 3300 (boot ∅)) in
  is_finite (result (getPH (F32.of_int 25) 1614 w)) = false.
Proof.
  cbv zeta.
  destruct (getPH_zero_ESPADC (F32.of_int 25) 1614
              (after (init 35 (F32.of_int 0) 3300 (boot ∅)))
              ltac:(vm_compute; reflexivity)) as (_ & Hr & _).
  exact Hr.
Defined.

Ltac receiver_facts :=
  repeat match goal with
    | |- receiver_ok _ => unfold receiver_ok
    | |- _ /\ _ => split
    | |- Forall _ _ => vm_compute; repeat constructor; discriminate
    | |- calm _ _ _ => vm_compute; intuition discriminate
    | |- _ => vm_compute; first [reflexivity | discriminate]
    end.

Lemma cmdSerialDataAvailable_safe_witness :
  exists b t',
    cmdSerialDataAvailable (rcv := steady_receiver)
      (fresh_transport (list_ascii_of_string "ABCDEFGHIJKLMNOPQR"))
    = Some (b, t')
    /\ receiver_ok (rcv := steady_receiver) t'.
Proof.
  destruct (cmdSerialDataAvailable_safe (rcv := steady_receiver)
              (fresh_transport (list_ascii_of_string "ABCDEFGHIJKLMNOPQR"))
              ltac:(receiver_facts))
    as (b & t' & Hr & Hok & _).
  exists b, t'. split; [exact Hr | exact Hok].
Defined.

Lemma line_keeps_stale_tail_witness :
  exists t',
    cmdSerialDataAvailable (rcv := steady_receiver)
      (after_enterph steady_receiver (line_bytes "calph")) = Some (true, t')
    /\ c_str (_cmdReceivedBuffer t')
       = (strupr (string_of_list_ascii (list_ascii_of_string "calph"))
          ++ strupr (c_str (drop 5 (_cmdReceivedBuffer
                                      (after_enterph steady_receiver
                                         (line_bytes "calph"))))))%string.
Proof.
  destruct (line_keeps_stale_tail (rcv := steady_receiver)
              (after_enterph steady_receiver (line_bytes "calph"))
              (list_ascii_of_string "calph") [])
    as (t' & Hr & _ & _ & Hc); [receiver_facts .. |].
  exists t'. split; [exact Hr | exact Hc].
Defined.

Lemma overlong_line_is_cut_witness :
  exists t',
    cmdSerialDataAvailable (rcv := steady_receiver)
      (fresh_transport (list_ascii_of_string "ABCDEFGHIJKL")) = Some (true, t')
    /\ Serial_rx t' = list_ascii_of_string "KL"
    /\ c_str (_cmdReceivedBuffer t')
       = strupr (string_of_list_ascii (list_ascii_of_string "ABCDEFGHI")).
Proof.
  destruct (overlong_line_is_cut (rcv := steady_receiver)
              (fresh_transport (list_ascii_of_string "ABCDEFGHIJKL"))
              (list_ascii_of_string "ABCDEFGHI") "J"%char
              (list_ascii_of_string "KL"))
    as (t' & Hr & Hq & _ & Hc); [receiver_facts .. |].
  exists t'. split; [exact Hr | split; [exact Hq | exact Hc]].
Defined.

Lemma line_after_pause_witness :
  exists t',
    cmdSerialDataAvailable (rcv := paused_receiver)
      (after_enterph paused_receiver (line_bytes "calph")) = Some (true, t')
    /\ c_str (_cmdReceivedBuffer t')
       = strupr (string_of_list_ascii (list_ascii_of_string "calph")).
Proof.
  destruct (line_after_pause (rcv := paused_receiver)
              (after_enterph paused_receiver (line_bytes "calph")) 16
              (list_ascii_of_string "calph") [])
    as (t' & Hr & _ & _ & Hc & _); [receiver_facts .. |].
  exists t'. split; [exact Hr | exact Hc].
Defined.

Lemma poll_in_pieces_witness :
  match cmdSerialDataAvailable (rcv := steady_receiver)
          (fresh_transport (list_ascii_of_string "ENT")) with
  | Some (_, t1) =>
      cmdSerialDataAvailable (rcv := steady_receiver)
        (arrive (line_bytes "ERPH") t1)
      = cmdSerialDataAvailable (rcv := steady_receiver)
          (arrive (line_bytes "ERPH")
             (fresh_transport (list_ascii_of_string "ENT")))
  | None => False
  end.
Proof.
  destruct (cmdSerialDataAvailable (rcv := steady_receiver)
              (fresh_transport (list_ascii_of_string "ENT")))
    as [[b t1] |] eqn:Hpoll; [| vm_compute in Hpoll; discriminate Hpoll].
  assert (Hb : b = false)
    by (vm_compute in Hpoll; injection Hpoll as <- _; reflexivity).
  subst b.
  destruct (poll_in_pieces (rcv := steady_receiver) _ _ (line_bytes "ERPH") Hpoll)
    as (_ & Heq).
  exact Heq.
Defined.

Ltac poll_result H :=
  let E := fresh "E" in
  pose proof H as E; vm_compute in E;
  first [discriminate E | injection E as <-].

Lemma manual_dialogue_witness :
  exists t3,
    calibration_serial (hdr := typical_header) (rcv := steady_receiver)
      (boot ∅)
      (fresh_transport (line_bytes "mancalph" ++ line_bytes "1500"
                        ++ line_bytes "2000"))
    = Done (with_store
              (<["voltage4" := _acidVoltage (self (boot ∅))]>
                 (<["voltage7" := _neutralVoltage (self (boot ∅))]> (nvs (boot ∅))))
              (boot ∅),
            t3,
            [Serial_println "Manual Calibration: Please enter the voltage value for pH 4";
             Serial_println "Manual Calibration: Please enter the voltage value for pH 7";
             preferences_begin "pHVals" false;
             preferences_putFloat "voltage7" (_neutralVoltage (self (boot ∅)));
             Serial_println "PH 7 Calibration value saved";
             preferences_putFloat "voltage4" (_acidVoltage (self (boot ∅)));
             Serial_println "PH 4 Calibration value saved";
             preferences_end]).
Proof.
  set (t := fresh_transport (line_bytes "mancalph" ++ line_bytes "1500"
                             ++ line_bytes "2000")).
  destruct (cmdSerialDataAvailable (rcv := steady_receiver) t)
    as [[[] t1] |] eqn:H1; try (vm_compute in H1; discriminate H1).
  destruct (cmdSerialDataAvailable (rcv := steady_receiver) t1)
    as [[[] t2] |] eqn:H2; try (poll_result H1; vm_compute in H2; discriminate H2).
  destruct (cmdSerialDataAvailable (rcv := steady_receiver) t2)
    as [[[] t3] |] eqn:H3;
    try (poll_result H1; poll_result H2; vm_compute in H3; discriminate H3).
  exists t3.
  assert (Hman : contains (c_str (_cmdReceivedBuffer t1)) "MANCALPH").
  { poll_result H1. exists ""%string, ""%string. vm_compute. reflexivity. }
  destruct (manual_dialogue (hdr := typical_header) (rcv := steady_receiver)
              (boot ∅) t t1 H1 Hman) as (_ & _ & Hsave & _).
  apply (Hsave t2 t3 H2).
  - poll_result H1. poll_result H2. not_contained.
  - exact H3.
  - poll_result H1. poll_result H2. poll_result H3. not_contained.
Defined.

Lemma calibration_serial_as_calibration_witness :
  let w := after (getPH (F32.of_int 25) 1614 session_entered) in
  let r := calibration (hdr := typical_header)
             (string_of_list_ascii (list_ascii_of_string "calph")) w in
  exists t',
    calibration_serial (hdr := typical_header) (rcv := paused_receiver) w
      (after_enterph paused_receiver (line_bytes "calph"))
    = Done (after r, t', trace r).
Proof.
  cbv zeta.
  destruct (calibration_serial_as_calibration (hdr := typical_header)
              (rcv := paused_receiver)
              (after (getPH (F32.of_int 25) 1614 session_entered))
              (after_enterph paused_receiver (line_bytes "calph")) 16
              (list_ascii_of_string "calph") [])
    as (t' & Hr & _); [receiver_facts .. | not_contained |].
  exists t'. exact Hr.
Defined.

Lemma accepted_sample_not_saved_after_move_witness :
  let w := after (getPH (F32.of_int 25) 1614 session_entered) in
  let w1 := after (phCalibration (hdr := typical_header) (mode_of TakeReading) w) in
  let w2 := after (getPH (F32.of_int 25) 2234 w1) in
  let r := phCalibration (hdr := typical_header) (mode_of ExitAndSave) w2 in
  CalibrationSucceeded (trace r)
  /\ nvs (after r) !! "voltage7" = nvs w !! "voltage7"
  /\ _neutralVoltage (self (after r)) = _voltage (self w).
Proof.
  cbv zeta.
  destruct (accepted_sample_not_saved_after_move (hdr := typical_header)
              (after (getPH (F32.of_int 25) 1614 session_entered))
              (F32.of_int 25) 2234
              ltac:(vm_compute; reflexivity) ltac:(vm_compute; reflexivity)
              ltac:(vm_compute; reflexivity) ltac:(vm_compute; reflexivity))
    as (Hok & _ & _ & H7 & Hn & _).
  split; [exact Hok | split; [exact H7 | exact Hn]].
Defined.

Lemma late_newline_discards_command_witness :
  exists t',
    cmdSerialDataAvailable (rcv := paused_receiver)
      (after_enterph paused_receiver [newline]) = Some (true, t')
    /\ c_str (_cmdReceivedBuffer t') = EmptyString.
Proof.
  destruct (late_newline_discards_command (rcv := paused_receiver)
              (after_enterph paused_receiver [newline]) [])
    as (t' & Hr & _ & _ & Hc & _); [receiver_facts .. |].
  exists t'. split; [exact Hr | exact Hc].
Defined.
